(** * Homenurseplan: the route-plan endpoint of [server.py]

    A shallow embedding of the Flask application in [src/server.py]: the
    values a request body decodes to, Python's truthiness and [or], the
    memoised configuration resolver [build_client], the message normaliser
    [_normalize_messages] and the handler [generate_route_plan], followed by
    the properties the specification states about them. *)

From Stdlib Require Import String Ascii List ZArith Bool Lia PrimFloat.
Import ListNotations.
Open Scope string_scope.
Open Scope Z_scope.

(** ** Python values

    [request.get_json] yields [None], a bool, an int, a float, a str, a list
    or a dict; the same shapes are what the handler hands to [jsonify] and to
    the completion client.  Text is kept as its UTF-8 bytes; a dict is the
    association list of its items, looked up by key. *)

#[local] Set Warnings "-register-all".

Inductive json : Type :=
| JNull
| JBool (b : bool)
| JInt (n : Z)
| JFloat (f : float)
| JStr (s : string)
| JArr (items : list json)
| JObj (items : list (string * json)).

Fixpoint lookup {A : Type} (key : string) (items : list (string * A)) : option A :=
  match items with
  | [] => None
  | (k, v) :: rest => if String.eqb key k then Some v else lookup key rest
  end.

(** [bool(v)]: [None], [False], zero, and empty text, lists and dicts are falsy. *)
Definition truthy (v : json) : bool :=
  match v with
  | JNull => false
  | JBool b => b
  | JInt n => negb (n =? 0)
  | JFloat f => negb (PrimFloat.eqb f 0%float)
  | JStr s => negb (String.eqb s "")
  | JArr items => match items with [] => false | _ => true end
  | JObj items => match items with [] => false | _ => true end
  end.

(** [a or b] on values that are already evaluated. *)
Definition py_or (a b : json) : json := if truthy a then a else b.

(** [type(v).__name__], as it appears in the text of an [AttributeError]. *)
Definition type_name (v : json) : string :=
  match v with
  | JNull => "NoneType"
  | JBool _ => "bool"
  | JInt _ => "int"
  | JFloat _ => "float"
  | JStr _ => "str"
  | JArr _ => "list"
  | JObj _ => "dict"
  end.

(** ** Exceptions and results *)

Inductive exn : Type :=
| AttributeError (type_of_object attribute : string)
| ConfigurationError (message : string)
| TypeError (message : string)
| ClientError (text : string).   (* whatever else the client library raises *)

(** [str(exc)]. *)
Definition exn_str (e : exn) : string :=
  match e with
  | AttributeError t a => "'" ++ t ++ "' object has no attribute '" ++ a ++ "'"
  | ConfigurationError m => m
  | TypeError m => m
  | ClientError t => t
  end.

Inductive result (A : Type) : Type :=
| Ok (a : A)
| Raise (e : exn).
Arguments Ok {A} a.
Arguments Raise {A} e.

Definition rbind {A B : Type} (r : result A) (k : A -> result B) : result B :=
  match r with
  | Ok a => k a
  | Raise e => Raise e
  end.

Declare Scope py_scope.
Delimit Scope py_scope with py.
Notation "x <- r ;; k" := (rbind r (fun x => k))
  (at level 100, r at next level, right associativity) : py_scope.

(** [v.get(key)]: only a dict has the method. *)
Definition method_get (v : json) (key : string) : result json :=
  match v with
  | JObj items => Ok (match lookup key items with Some x => x | None => JNull end)
  | _ => Raise (AttributeError (type_name v) "get")
  end.

(** [v.get(key, default)]. *)
Definition method_get_default (v : json) (key : string) (default : json) : result json :=
  match v with
  | JObj items => Ok (match lookup key items with Some x => x | None => default end)
  | _ => Raise (AttributeError (type_name v) "get")
  end.

(** ** [str.strip()]

    With no argument [strip] removes the characters for which [str.isspace]
    holds from both ends: U+0009..U+000D, U+001C..U+0020, U+0085, U+00A0,
    U+1680, U+2000..U+200A, U+2028, U+2029, U+202F, U+205F and U+3000.  On
    UTF-8 text these are one, two or three bytes long. *)

Definition byte (c : ascii) : nat := nat_of_ascii c.

Definition space1 (c : ascii) : bool :=
  let n := byte c in
  ((9 <=? n) && (n <=? 13) || (28 <=? n) && (n <=? 32))%nat.

Definition space2 (c1 c2 : ascii) : bool :=
  ((byte c1 =? 194) && ((byte c2 =? 133) || (byte c2 =? 160)))%nat.

Definition space3 (c1 c2 c3 : ascii) : bool :=
  let a := byte c1 in let b := byte c2 in let c := byte c3 in
  ((a =? 225) && (b =? 154) && (c =? 128)
   || (a =? 226) && (b =? 128)
      && ((128 <=? c) && (c <=? 138) || (c =? 168) || (c =? 169) || (c =? 175))
   || (a =? 226) && (b =? 129) && (c =? 159)
   || (a =? 227) && (b =? 128) && (c =? 128))%nat.

(** Drop leading whitespace.  [backwards] reads a multi-byte character from
    its last byte, for use on reversed text. *)
Fixpoint drop_space (backwards : bool) (s : string) : string :=
  match s with
  | EmptyString => s
  | String c1 r1 =>
    if space1 c1 then drop_space backwards r1 else
    match r1 with
    | EmptyString => s
    | String c2 r2 =>
      if (if backwards then space2 c2 c1 else space2 c1 c2) then drop_space backwards r2 else
      match r2 with
      | EmptyString => s
      | String c3 r3 =>
        if (if backwards then space3 c3 c2 c1 else space3 c1 c2 c3)
        then drop_space backwards r3 else s
      end
    end
  end.

Fixpoint rev_string (s acc : string) : string :=
  match s with
  | EmptyString => acc
  | String c r => rev_string r (String c acc)
  end.

Definition lstrip (s : string) : string := drop_space false s.
Definition rstrip (s : string) : string :=
  rev_string (drop_space true (rev_string s "")) "".
Definition strip (s : string) : string := rstrip (lstrip s).

(** [v.strip()]: only text has the method. *)
Definition method_strip (v : json) : result string :=
  match v with
  | JStr s => Ok (strip s)
  | _ => Raise (AttributeError (type_name v) "strip")
  end.

(** ** The fixed instruction text *)

Definition nl : string := String (ascii_of_nat 10) "".

Definition SYSTEM_PROMPT : string :=
  "角色" ++ nl
  ++ "你是一位專業的路線排程專家，可以洞察醫療端以及民眾段的需求以及人性，並熟知交通不同時段狀況以及當地文化習慣，"
  ++ "總是用盡全力與相關背景知識與工具來逐步推理出令人滿意的訪視路線。" ++ nl ++ nl ++ nl
  ++ "格式" ++ nl
  ++ "1. 以臺灣繁體中文來呈現“訪視時間表”、“訪視路線排程結果”以及“排程考量與貼心提醒”。" ++ nl
  ++ "2. 訪視時間表必須包含這些項目：順序、地點類別、名稱/病人姓名、地址、時間。" ++ nl
  ++ "3. 時間格式為24小時制，HH：MM 。" ++ nl
  ++ "4. ”訪視路線排程結果“則是會在訪視時間表下方呈現一個連結按鈕（排程路線地圖），點按之後可以連結到Google地圖應用程式或是網頁，呈現訪視路線地圖。" ++ nl
  ++ "5. “排程考量與貼心提醒”：簡易說明這份訪視路線排程要注意的地方。" ++ nl ++ nl ++ nl ++ nl
  ++ "指令" ++ nl
  ++ "1. 必須遵守角色設定，還有以臺灣繁體中文來呈現方式時間表以及路線排程結果。" ++ nl
  ++ "2.先置放完優先事項的時間點或是特殊訪視時段要求以及限制之後才能開始排程。" ++ nl
  ++ "3. 排程前必須先調用Google Map的Function去得到任兩點的交通距離以及時間。" ++ nl
  ++ "4. 依據特殊個案的優先指定時段還有得到的任兩點交通距離時間再來遵守「拓撲排序」邏輯來編排訪視路線。" ++ nl
  ++ "5.訪視後的路線必須完成特殊個案的優先指定時段以及最佳經濟效率的路線排班。" ++ nl
  ++ "6. 排完路線後，需要呈現完整詳細的訪視時間表以及在Google 地圖上畫出訪視路線地圖。" ++ nl
  ++ "7. 訪視時間表必須包含這些項目：順序、地點類別、名稱/病人姓名、地址、時間。" ++ nl
  ++ "8. 順序：保留項目名稱為阿拉伯數字，出發點為0。" ++ nl
  ++ "9. 地點類別：保留項目名稱，項目包含：出發點、病人、用餐、終點。" ++ nl
  ++ "10.名稱/病人姓名：保留項目名稱，項目包含：起點名稱、病人姓名（+特殊時段需求/極簡背景備註）、終點名稱" ++ nl
  ++ "11. 地址：保留項目名稱，寫出對應的地址資訊，用餐地址空白即可。" ++ nl
  ++ "12. 時間：保留項目名稱，項目包含起點出發時間（出發點）、抵達時間（病人）、訪視停留時間（病人）、離開時間（彬病人）、用餐時間（移動緩衝時間）、抵達時間（終點）。時間格式為24小時制，HH：MM 。" ++ nl
  ++ "13. ”訪視路線排程結果“則是會在訪視時間表下方呈現一個連結按鈕（排程路線地圖），點按之後可以連結到Google地圖應用程式或是網頁，呈現訪視路線地圖。" ++ nl
  ++ "14. “排程考量與貼心提醒”：在”訪視路線排程結果“之後，簡易說明這份訪視路線排程要注意的地方，禁止說到拓撲兩個字，只需要說名是否有符合特殊時段需求以及最佳路線排程即可。" ++ nl
  ++ "15. 病人訪視一定要嚴格遵守「拓撲排序」邏輯。".

(** ** Message normaliser *)

(** [{"type": "text", "text": s}] *)
Definition text_part (s : string) : json :=
  JObj [("type", JStr "text"); ("text", JStr s)].

(** [{"role": role, "content": content}] *)
Definition chat_message (role content : json) : json :=
  JObj [("role", role); ("content", content)].

Definition system_message : json :=
  chat_message (JStr "system") (JArr [text_part SYSTEM_PROMPT]).

Definition user_message (prompt : string) : json :=
  chat_message (JStr "user") (JArr [text_part prompt]).

(** The [for message in user_messages] loop; [messages] is the list built so
    far and [messages ++ [m]] is [messages.append(m)]. *)
Fixpoint normalize_loop (user_messages messages : list json) : result (list json) :=
  match user_messages with
  | [] => Ok messages
  | message :: rest =>
    (role <- method_get message "role" ;;
     content <- method_get message "content" ;;
     if negb (truthy role) || (match content with JNull => true | _ => false end)
     then normalize_loop rest messages
     else match content with
          | JStr s =>
            normalize_loop rest (messages ++ [chat_message role (JArr [text_part s])])
          | JArr _ =>
            normalize_loop rest (messages ++ [chat_message role content])
          | _ => normalize_loop rest messages
          end)%py
  end.

Definition _normalize_messages (user_messages : list json) (prompt : string)
  : result (list json) :=
  (messages <- normalize_loop user_messages [system_message] ;;
   Ok (if truthy (JStr prompt) then (messages ++ [user_message prompt])%list else messages))%py.

(** ** Configuration resolver *)

Record AzureOpenAI : Type := {
  azure_endpoint : string;
  api_key : string;
  api_version : string
}.

(** The dict [{"client": client, "deployment": deployment}]. *)
Record Config : Type := {
  client : AzureOpenAI;
  deployment : string
}.

Definition environment : Type := list (string * string).

(** [os.getenv(name)] *)
Definition getenv (env : environment) (name : string) : option string :=
  lookup name env.

(** [not v] for a value that is [None] or text. *)
Definition is_falsy (v : option string) : bool :=
  match v with
  | None => true
  | Some s => String.eqb s ""
  end.

(** [os.getenv(name) or os.getenv(fallback)] *)
Definition getenv_or (env : environment) (name fallback : string) : option string :=
  if is_falsy (getenv env name) then getenv env fallback else getenv env name.

(** The text of a value known not to be [None]. *)
Definition text_of (v : option string) : string :=
  match v with
  | Some s => s
  | None => ""
  end.

Definition configuration_message : string :=
  "Azure OpenAI 設定不完整，請確認 AZURE_OPENAI_ENDPOINT、AZURE_OPENAI_DEPLOYMENT 以及 AZURE_OPENAI_API_KEY 已設定於環境變數或 .env。".

(** The body of [build_client], without its cache.  [AzureOpenAI(...)] is
    the client library's constructor: it returns the client holding the three
    settings or raises an error of the library's own, for an endpoint it
    cannot read as a URL for one.  Which settings it refuses is the
    library's business: [refuses] gives the text of the error it raises for a
    client, [None] when it builds it. *)
Definition build_client_body (refuses : AzureOpenAI -> option string)
           (env : environment) : result Config :=
  let endpoint := getenv_or env "AZURE_OPENAI_ENDPOINT" "ENDPOINT_URL" in
  let deployment := getenv_or env "AZURE_OPENAI_DEPLOYMENT" "DEPLOYMENT_NAME" in
  let api_key := getenv env "AZURE_OPENAI_API_KEY" in
  let api_version :=
    match getenv env "AZURE_OPENAI_API_VERSION" with
    | Some v => v
    | None => "2025-01-01-preview"
    end in
  if is_falsy endpoint || is_falsy deployment || is_falsy api_key
  then Raise (ConfigurationError configuration_message)
  else
    let client := {| azure_endpoint := text_of endpoint;
                     api_key := text_of api_key;
                     api_version := api_version |} in
    match refuses client with
    | Some text => Raise (ClientError text)
    | None => Ok {| client := client; deployment := text_of deployment |}
    end.

(** ** The completion client

    What [client.chat.completions.create] is called with, and the parts of
    its result the handler reads.  The handler guards [choices], a choice's
    [message] and [finish_reason], a message's [content] and the completion's
    [usage] against absence; it reads a message's [role] unguarded.  The usage
    of a completion is an object of the client library, not JSON. *)

Record CreateArgs : Type := {
  create_client : AzureOpenAI;
  model : string;
  messages : list json;
  max_completion_tokens : json;
  temperature : json
}.

Record ChatMessage : Type := {
  content : option string;
  role : string
}.

Record Choice : Type := {
  message : option ChatMessage;
  finish_reason : option string
}.

Record CompletionUsage : Type := {
  completion_tokens : Z;
  prompt_tokens : Z;
  total_tokens : Z
}.

Record Completion : Type := {
  choices : list Choice;
  usage : option CompletionUsage
}.

(** ** Process state and the handler monad

    [build_client] is wrapped in [lru_cache(maxsize=1)]; the cache, the
    environment it reads and the calls made to the completion service are the
    state a request runs in. *)

Record World : Type := {
  environ : environment;
  cache : option Config;
  calls : list CreateArgs
}.

Definition M (A : Type) : Type := World -> result A * World.

Definition ret {A : Type} (a : A) : M A := fun w => (Ok a, w).

Definition bind {A B : Type} (m : M A) (k : A -> M B) : M B :=
  fun w => match m w with
           | (Ok a, w') => k a w'
           | (Raise e, w') => (Raise e, w')
           end.

Definition lift {A : Type} (r : result A) : M A := fun w => (r, w).

(** [try: m  except ...]: the outcome of [m], exception included, as a value. *)
Definition try_except {A : Type} (m : M A) : M (result A) :=
  fun w => let (r, w') := m w in (Ok r, w').

Declare Scope handler_scope.
Delimit Scope handler_scope with handler.
Notation "x <-- m ;; k" := (bind m (fun x => k))
  (at level 100, m at next level, right associativity) : handler_scope.

(** [lru_cache]: a value once returned is returned again without running the
    body; an exception leaves the cache as it was. *)
Definition build_client (refuses : AzureOpenAI -> option string) : M Config :=
  fun w =>
    match cache w with
    | Some config => (Ok config, w)
    | None =>
      match build_client_body refuses (environ w) with
      | Ok config =>
        (Ok config, {| environ := environ w; cache := Some config; calls := calls w |})
      | Raise e => (Raise e, w)
      end
    end.

(** ** The endpoint *)

(** A request, as far as the handler looks at it: what its body decodes to,
    [None] when the body is not JSON at all. *)
Record Request : Type := {
  decoded_body : option json
}.

(** [request.get_json(silent=True)] *)
Definition get_json_silent (request : Request) : json :=
  match decoded_body request with
  | Some v => v
  | None => JNull
  end.

Record Response : Type := {
  status : Z;
  body : json
}.

Definition missing_input_message : string := "請提供至少一段訪視需求說明或歷史對話。".
Definition upstream_failure_message : string := "Azure OpenAI 服務呼叫失敗".

(** Line 112: [request.get_json(silent=True) or {}] *)
Definition request_payload (request : Request) : json :=
  py_or (get_json_silent request) (JObj []).

(** Line 113: [(payload.get("prompt") or payload.get("user_prompt") or "").strip()] *)
Definition raw_prompt (payload : json) : result json :=
  (p <- method_get payload "prompt" ;;
   if truthy p then Ok p
   else q <- method_get payload "user_prompt" ;; Ok (py_or q (JStr "")))%py.

Definition request_prompt (payload : json) : result string :=
  (raw <- raw_prompt payload ;; method_strip raw)%py.

(** Line 114: [payload.get("messages") or []] *)
Definition request_messages (payload : json) : result json :=
  (m <- method_get payload "messages" ;; Ok (py_or m (JArr [])))%py.

(** Line 122: [user_messages if isinstance(user_messages, list) else []] *)
Definition list_or_empty (v : json) : list json :=
  match v with
  | JArr items => items
  | _ => []
  end.

(** A value handed to [jsonify]: JSON, or the usage object of a completion. *)
Inductive handed : Type :=
| Json (v : json)
| UsageObject (u : CompletionUsage).

(** [jsonify(d)] for a dict [d]: the encoder has no encoding for the usage
    object and raises [TypeError] on it. *)
Fixpoint jsonify_items (items : list (string * handed)) : result (list (string * json)) :=
  match items with
  | [] => Ok []
  | (key, Json v) :: rest =>
    (rest' <- jsonify_items rest ;; Ok ((key, v) :: rest'))%py
  | (key, UsageObject _) :: _ =>
    Raise (TypeError "Object of type CompletionUsage is not JSON serializable")
  end.

Definition jsonify (items : list (string * handed)) : result json :=
  (items' <- jsonify_items items ;; Ok (JObj items'))%py.

Section Endpoint.

(** The client library: which clients its constructor refuses, and what a
    call to the completion service answers or raises. *)
Variable refuses : AzureOpenAI -> option string.
Variable create : CreateArgs -> result Completion.

(** [client.chat.completions.create(...)]: the one outbound call. *)
Definition chat_completions_create (args : CreateArgs) : M Completion :=
  fun w =>
    (create args,
     {| environ := environ w; cache := cache w; calls := (calls w ++ [args])%list |}).

(** Lines 140-154: the dict the 200 response is made of. *)
Definition response_payload (completion : Completion) : list (string * handed) :=
  let choice := match choices completion with c :: _ => Some c | [] => None end in
  let message_content :=
    match choice with
    | Some c =>
      match message c with
      | Some m => match content m with Some s => s | None => "" end
      | None => ""
      end
    | None => ""
    end in
  let payload1 :=
    [("content", Json (JStr message_content));
     ("usage", match usage completion with Some u => UsageObject u | None => Json JNull end)] in
  let payload2 :=
    match choice with
    | Some c =>
      if negb (is_falsy (finish_reason c))
      then (payload1 ++ [("finish_reason", Json (JStr (text_of (finish_reason c))))])%list
      else payload1
    | None => payload1
    end in
  let payload3 :=
    match choice with
    | Some c =>
      match message c with
      | Some m => (payload2 ++ [("message_role", Json (JStr (role m)))])%list
      | None => payload2
      end
    | None => payload2
    end in
  payload3.

(** Lines 132-156: what the handler returns for what the guarded block came
    to.  The two [except] clauses return from inside the block; the
    [jsonify] of line 156 runs after it, so what it raises leaves the
    handler. *)
Definition outcome_response (outcome : result Completion) : result Response :=
  match outcome with
  | Raise (ConfigurationError msg) =>
    Ok {| status := 500; body := JObj [("error", JStr msg)] |}
  | Raise exc =>
    Ok {| status := 502;
          body := JObj [("error", JStr upstream_failure_message);
                        ("detail", JStr (exn_str exc))] |}
  | Ok completion =>
    (body <- jsonify (response_payload completion) ;;
     Ok {| status := 200; body := body |})%py
  end.

(** Lines 124-156: the guarded call and its response. *)
Definition call_upstream (payload : json) (messages : list json) : M Response :=
  (outcome <-- try_except
     (config <-- build_client refuses ;;
      tokens <-- lift (method_get_default payload "max_completion_tokens" (JInt 4096)) ;;
      temp <-- lift (method_get_default payload "temperature"
                                        (JFloat 0x1.999999999999ap-3%float)) ;;
      chat_completions_create
        {| create_client := client config;
           model := deployment config;
           messages := messages;
           max_completion_tokens := tokens;
           temperature := temp |}) ;;
   lift (outcome_response outcome))%handler.

Definition generate_route_plan (request : Request) : M Response :=
  (let payload := request_payload request in
   prompt <-- lift (request_prompt payload) ;;
   user_messages <-- lift (request_messages payload) ;;
   if negb (truthy (JStr prompt)) && negb (truthy user_messages)
   then ret {| status := 400; body := JObj [("error", JStr missing_input_message)] |}
   else
     messages <-- lift (_normalize_messages (list_or_empty user_messages) prompt) ;;
     call_upstream payload messages)%handler.

(** [GET /health] *)
Definition health_check : Response :=
  {| status := 200; body := JObj [("status", JStr "ok")] |}.

End Endpoint.

(** ** The history filter as the specification words it

    Section 4.2, step 2: for each entry of the history, in order, skip it when
    it lacks a role or lacks content; wrap content that is plain text as a
    single text part; pass content that is already a sequence through; skip
    any other shape.  A role that is absent, [None] or otherwise falsy (the
    empty text, zero, [False], an empty list or dict) counts as lacking;
    content lacks when it is absent or [None]. *)

Definition is_dict (v : json) : bool :=
  match v with
  | JObj _ => true
  | _ => false
  end.

Definition entry_field (key : string) (entry : json) : json :=
  match entry with
  | JObj items => match lookup key items with Some v => v | None => JNull end
  | _ => JNull
  end.

Definition lacks_role (entry : json) : bool :=
  negb (truthy (entry_field "role" entry)).

Definition lacks_content (entry : json) : bool :=
  match entry_field "content" entry with
  | JNull => true
  | _ => false
  end.

Definition spec_entry (entry : json) : option json :=
  if lacks_role entry || lacks_content entry then None
  else match entry_field "content" entry with
       | JStr s => Some (chat_message (entry_field "role" entry) (JArr [text_part s]))
       | JArr parts => Some (chat_message (entry_field "role" entry) (JArr parts))
       | _ => None
       end.

Fixpoint spec_history (history : list json) : list json :=
  match history with
  | [] => []
  | entry :: rest =>
    match spec_entry entry with
    | Some m => m :: spec_history rest
    | None => spec_history rest
    end
  end.

(** The trailing message of a prompt handed to the normaliser. *)
Definition prompt_tail (prompt : string) : list json :=
  if truthy (JStr prompt) then [user_message prompt] else [].

(** ** Equality with the system message

    Python's [==] on dicts looks at keys and values, not at the order of the
    items.  Text is equal to text only, a list to a list of equal elements
    only, a dict to a dict only. *)

(** The dict [items] has the keys [keys] and no other. *)
Definition same_keys (items : list (string * json)) (keys : list string) : Prop :=
  forall key, lookup key items <> None <-> In key keys.

(** [v == {"type": "text", "text": s}] *)
Definition equals_text_part (v : json) (s : string) : Prop :=
  exists items,
    v = JObj items
    /\ same_keys items ["type"; "text"]
    /\ lookup "type" items = Some (JStr "text")
    /\ lookup "text" items = Some (JStr s).

(** [m == system_message] *)
Definition equals_system_message (m : json) : Prop :=
  exists items part,
    m = JObj items
    /\ same_keys items ["role"; "content"]
    /\ lookup "role" items = Some (JStr "system")
    /\ lookup "content" items = Some (JArr [part])
    /\ equals_text_part part SYSTEM_PROMPT.

(** Exactly one element of [l] satisfies [P]. *)
Definition occurs_once (P : json -> Prop) (l : list json) : Prop :=
  exists before m after,
    l = (before ++ m :: after)%list
    /\ P m
    /\ (forall x, In x before -> ~ P x)
    /\ (forall x, In x after -> ~ P x).

(** A history entry that says what the system message says: the role
    "system" and, as content, the instruction text itself or a list of the one
    text part that holds it. *)
Definition restates_system (entry : json) : Prop :=
  entry_field "role" entry = JStr "system"
  /\ (entry_field "content" entry = JStr SYSTEM_PROMPT
      \/ exists part, entry_field "content" entry = JArr [part]
                      /\ equals_text_part part SYSTEM_PROMPT).

(** A setting is missing when it is not in the environment or is empty there. *)
Definition missing (env : environment) (name : string) : Prop :=
  getenv env name = None \/ getenv env name = Some "".

(** The mandatory settings, each with its fallback name. *)
Definition settings_missing (env : environment) : Prop :=
  (missing env "AZURE_OPENAI_ENDPOINT" /\ missing env "ENDPOINT_URL")
  \/ (missing env "AZURE_OPENAI_DEPLOYMENT" /\ missing env "DEPLOYMENT_NAME")
  \/ missing env "AZURE_OPENAI_API_KEY".

(** The arguments of the one call a request makes. *)
Definition upstream_args (config : Config) (items : list (string * json))
           (ms : list json) : CreateArgs :=
  {| create_client := client config;
     model := deployment config;
     messages := ms;
     max_completion_tokens :=
       match lookup "max_completion_tokens" items with Some v => v | None => JInt 4096 end;
     temperature :=
       match lookup "temperature" items with
       | Some v => v
       | None => JFloat 0x1.999999999999ap-3%float
       end |}.

(** ** Worlds and services to run the handler in *)

(** A world with nothing configured, nothing cached and nothing called. *)
Definition blank_world : World := {| environ := []; cache := None; calls := [] |}.

(** A client library whose constructor builds every client, and one whose
    constructor reads no endpoint as a URL. *)
Definition builds_all (client : AzureOpenAI) : option string := None.
Definition builds_none (client : AzureOpenAI) : option string :=
  Some "Invalid URL".

(** A completion service that is out of reach. *)
Definition unreachable (args : CreateArgs) : result Completion :=
  Raise (ClientError "Connection error.").

(** An environment holding the three mandatory settings. *)
Definition configured_env : environment :=
  [("AZURE_OPENAI_ENDPOINT", "https://example.openai.azure.com");
   ("DEPLOYMENT_NAME", "gpt");
   ("AZURE_OPENAI_API_KEY", "secret")].

Definition configured_world : World :=
  {| environ := configured_env; cache := None; calls := [] |}.

(** The completion of the specification's example. *)
Definition example_completion : Completion :=
  {| choices := [{| message := Some {| content := Some "訪視時間表...";
                                       role := "assistant" |};
                    finish_reason := Some "stop" |}];
     usage := None |}.

Definition answering (args : CreateArgs) : result Completion := Ok example_completion.

(** The same completion with its usage, as the service sends it. *)
Definition counted_completion : Completion :=
  {| choices := choices example_completion;
     usage := Some {| completion_tokens := 120; prompt_tokens := 900;
                      total_tokens := 1020 |} |}.

Definition counting (args : CreateArgs) : result Completion := Ok counted_completion.

(** ** Requests the handler cannot read

    What makes a line of the handler outside its guarded block raise: a
    payload that is not a dict, a prompt that is not text, or a list of
    messages holding something that is not a dict. *)
Definition malformed (request : Request) : Prop :=
  is_dict (request_payload request) = false
  \/ (exists v, raw_prompt (request_payload request) = Ok v /\ forall s, v <> JStr s)
  \/ (exists l v, request_messages (request_payload request) = Ok (JArr l)
                  /\ In v l /\ is_dict v = false).

(** * Properties *)

(** ** The normaliser *)

Lemma method_get_dict (items : list (string * json)) (key : string) :
  method_get (JObj items) key = Ok (entry_field key (JObj items)).
Proof. reflexivity. Qed.

Lemma method_get_not_dict (v : json) (key : string) :
  is_dict v = false -> method_get v key = Raise (AttributeError (type_name v) "get").
Proof. destruct v; simpl; intro H; try reflexivity; discriminate H. Qed.

(** One turn of the loop on a dict is the specification's filter. *)
Lemma normalize_loop_step (entry : json) (rest acc : list json) :
  is_dict entry = true ->
  normalize_loop (entry :: rest) acc =
  normalize_loop rest (match spec_entry entry with
                       | Some m => (acc ++ [m])%list
                       | None => acc
                       end).
Proof.
  destruct entry as [| | | | | |items]; try discriminate. intros _.
  unfold spec_entry, lacks_role, lacks_content.
  cbn [normalize_loop]. rewrite !method_get_dict. cbn [rbind].
  destruct (truthy (entry_field "role" (JObj items))); cbn [negb orb];
    destruct (entry_field "content" (JObj items)); reflexivity.
Qed.

Lemma normalize_loop_not_dict (entry : json) (rest acc : list json) :
  is_dict entry = false ->
  normalize_loop (entry :: rest) acc = Raise (AttributeError (type_name entry) "get").
Proof.
  intro H. cbn [normalize_loop]. rewrite (method_get_not_dict _ _ H). reflexivity.
Qed.

Lemma normalize_loop_spec (history acc : list json) :
  Forall (fun e => is_dict e = true) history ->
  normalize_loop history acc = Ok (acc ++ spec_history history)%list.
Proof.
  intro H. revert acc. induction H as [|entry rest Hd _ IH]; intro acc.
  - cbn. now rewrite app_nil_r.
  - rewrite (normalize_loop_step _ _ _ Hd), IH. cbn [spec_history].
    destruct (spec_entry entry); [now rewrite <- app_assoc | reflexivity].
Qed.

(** The loop returns only when every entry is a dict. *)
Lemma normalize_loop_ok (history acc out : list json) :
  normalize_loop history acc = Ok out ->
  Forall (fun e => is_dict e = true) history.
Proof.
  revert acc. induction history as [|entry rest IH]; intros acc H; [constructor|].
  destruct (is_dict entry) eqn:Hd.
  - rewrite (normalize_loop_step _ _ _ Hd) in H. constructor; [exact Hd | eauto].
  - rewrite (normalize_loop_not_dict _ _ _ Hd) in H. discriminate H.
Qed.

(** The loop reads an entry only after every entry before it. *)
Lemma normalize_loop_app (before after acc : list json) :
  normalize_loop (before ++ after) acc =
  (out <- normalize_loop before acc ;; normalize_loop after out)%py.
Proof.
  revert acc. induction before as [|entry rest IH]; intro acc; [reflexivity|].
  rewrite <- app_comm_cons. destruct (is_dict entry) eqn:Hd.
  - rewrite !(normalize_loop_step _ _ _ Hd). apply IH.
  - rewrite !(normalize_loop_not_dict _ _ _ Hd). reflexivity.
Qed.

Lemma normalize_messages_spec (history : list json) (prompt : string) :
  Forall (fun e => is_dict e = true) history ->
  _normalize_messages history prompt =
  Ok (system_message :: spec_history history ++ prompt_tail prompt)%list.
Proof.
  intro H. unfold _normalize_messages, prompt_tail.
  rewrite (normalize_loop_spec _ _ H). cbn [rbind app].
  destruct (truthy (JStr prompt)); [reflexivity | now rewrite app_nil_r].
Qed.

Lemma normalize_messages_ok (history : list json) (prompt : string) (out : list json) :
  _normalize_messages history prompt = Ok out ->
  Forall (fun e => is_dict e = true) history.
Proof.
  unfold _normalize_messages. intro H.
  destruct (normalize_loop history [system_message]) as [ms|e] eqn:Hl; [|discriminate H].
  exact (normalize_loop_ok _ _ _ Hl).
Qed.

Lemma spec_history_app (before after : list json) :
  spec_history (before ++ after) = (spec_history before ++ spec_history after)%list.
Proof.
  induction before as [|entry rest IH]; [reflexivity|].
  cbn [app spec_history]. rewrite IH. now destruct (spec_entry entry).
Qed.

Lemma spec_history_in (m : json) (history : list json) :
  In m (spec_history history) <-> exists entry, In entry history /\ spec_entry entry = Some m.
Proof.
  induction history as [|entry rest IH]; cbn [spec_history In].
  - split; [contradiction | intros (e & [] & _)].
  - destruct (spec_entry entry) as [m'|] eqn:He; cbn [In]; rewrite IH; split.
    + intros [<- | (e & Hin & Hs)]; [exists entry; auto | exists e; auto].
    + intros (e & [<- | Hin] & Hs); [left; congruence | right; exists e; auto].
    + intros (e & Hin & Hs); exists e; auto.
    + intros (e & [<- | Hin] & Hs); [congruence | exists e; auto].
Qed.

(** ** The configuration resolver *)

Lemma is_falsy_true (v : option string) :
  is_falsy v = true <-> v = None \/ v = Some "".
Proof.
  destruct v as [s|]; cbn.
  - rewrite String.eqb_eq. split; [intros ->; now right | intros [H|H]; congruence].
  - split; [now left | reflexivity].
Qed.

Lemma getenv_or_falsy (env : environment) (name fallback : string) :
  is_falsy (getenv_or env name fallback) = true <-> missing env name /\ missing env fallback.
Proof.
  unfold getenv_or, missing. rewrite <- !is_falsy_true.
  destruct (is_falsy (getenv env name)) eqn:H1.
  - tauto.
  - rewrite H1. split; [discriminate | intros [H _]; discriminate H].
Qed.

Lemma settings_missing_falsy (env : environment) :
  is_falsy (getenv_or env "AZURE_OPENAI_ENDPOINT" "ENDPOINT_URL")
  || is_falsy (getenv_or env "AZURE_OPENAI_DEPLOYMENT" "DEPLOYMENT_NAME")
  || is_falsy (getenv env "AZURE_OPENAI_API_KEY") = true
  <-> settings_missing env.
Proof.
  unfold settings_missing. rewrite !orb_true_iff, !getenv_or_falsy.
  rewrite (is_falsy_true (getenv env "AZURE_OPENAI_API_KEY")). unfold missing. tauto.
Qed.

Lemma build_client_body_missing {refuses : AzureOpenAI -> option string}
      (env : environment) :
  settings_missing env ->
  build_client_body refuses env = Raise (ConfigurationError configuration_message).
Proof.
  intro H. apply settings_missing_falsy in H. unfold build_client_body. now rewrite H.
Qed.

(** The body raises the configuration error for missing settings, and
    otherwise only what the constructor raises. *)
Lemma build_client_body_raises {refuses : AzureOpenAI -> option string}
      (env : environment) (e : exn) :
  build_client_body refuses env = Raise e ->
  (e = ConfigurationError configuration_message /\ settings_missing env)
  \/ (~ settings_missing env /\ exists text, e = ClientError text).
Proof.
  unfold build_client_body. rewrite <- settings_missing_falsy.
  destruct (is_falsy (getenv_or env "AZURE_OPENAI_ENDPOINT" "ENDPOINT_URL")
            || is_falsy (getenv_or env "AZURE_OPENAI_DEPLOYMENT" "DEPLOYMENT_NAME")
            || is_falsy (getenv env "AZURE_OPENAI_API_KEY")).
  - intro H. inversion H. now left.
  - match goal with |- context [refuses ?c] => destruct (refuses c) as [text|] end;
      intro H; inversion H. right. split; [discriminate | eauto].
Qed.

Lemma build_client_cached {refuses : AzureOpenAI -> option string} (w : World) (config : Config) :
  cache w = Some config -> build_client refuses w = (Ok config, w).
Proof. unfold build_client. now intros ->. Qed.

Lemma build_client_raise {refuses : AzureOpenAI -> option string} (w : World) (e : exn) (w' : World) :
  build_client refuses w = (Raise e, w') ->
  w' = w /\ cache w = None /\ build_client_body refuses (environ w) = Raise e.
Proof.
  unfold build_client. destruct (cache w); [discriminate|].
  destruct (build_client_body refuses (environ w)); [discriminate|].
  intro H. inversion H. auto.
Qed.

Lemma build_client_ok {refuses : AzureOpenAI -> option string} (w : World) (config : Config) (w' : World) :
  build_client refuses w = (Ok config, w') ->
  environ w' = environ w /\ calls w' = calls w /\ cache w' = Some config.
Proof.
  unfold build_client. destruct (cache w) eqn:Hc.
  - intro H. inversion H. subst. auto.
  - destruct (build_client_body refuses (environ w)); [|discriminate].
    intro H. inversion H. subst. auto.
Qed.

(** ** The handler, path by path *)

Section Paths.

Variable refuses : AzureOpenAI -> option string.
Variable create : CreateArgs -> result Completion.

Lemma call_upstream_unconfigured (payload : json) (ms : list json) (w : World) (e : exn) :
  fst (build_client refuses w) = Raise e ->
  call_upstream refuses create payload ms w = (outcome_response (Raise e), w).
Proof.
  destruct (build_client refuses w) as [r w'] eqn:Hb. cbn [fst]. intros ->.
  destruct (build_client_raise _ _ _ Hb) as (-> & _ & _).
  unfold call_upstream, bind, try_except, lift. rewrite Hb. reflexivity.
Qed.

Lemma call_upstream_configured (items : list (string * json)) (ms : list json)
      (w : World) (config : Config) :
  fst (build_client refuses w) = Ok config ->
  call_upstream refuses create (JObj items) ms w =
  (outcome_response (create (upstream_args config items ms)),
   {| environ := environ w;
      cache := Some config;
      calls := (calls w ++ [upstream_args config items ms])%list |}).
Proof.
  destruct (build_client refuses w) as [r w'] eqn:Hb. cbn [fst]. intros ->.
  destruct (build_client_ok _ _ _ Hb) as (He & Hc & Hk).
  unfold call_upstream, bind, try_except, lift, chat_completions_create, ret.
  rewrite Hb. cbn. rewrite He, Hc, Hk. reflexivity.
Qed.

Lemma handler_rejects (request : Request) (w : World) (prompt : string) (um : json) :
  request_prompt (request_payload request) = Ok prompt ->
  request_messages (request_payload request) = Ok um ->
  truthy (JStr prompt) = false -> truthy um = false ->
  generate_route_plan refuses create request w =
  (Ok {| status := 400; body := JObj [("error", JStr missing_input_message)] |}, w).
Proof.
  intros Hp Hm Ht Hu. unfold generate_route_plan, bind, lift.
  rewrite Hp, Hm, Ht, Hu. reflexivity.
Qed.

Lemma handler_proceeds (request : Request) (w : World) (prompt : string) (um : json)
      (ms : list json) :
  request_prompt (request_payload request) = Ok prompt ->
  request_messages (request_payload request) = Ok um ->
  truthy (JStr prompt) || truthy um = true ->
  _normalize_messages (list_or_empty um) prompt = Ok ms ->
  generate_route_plan refuses create request w = call_upstream refuses create (request_payload request) ms w.
Proof.
  intros Hp Hm Ht Hn. unfold generate_route_plan, bind, lift.
  rewrite Hp, Hm, Hn.
  destruct (truthy (JStr prompt)); destruct (truthy um); try discriminate Ht; reflexivity.
Qed.

(** A payload whose prompt could be read is a dict. *)
Lemma request_prompt_dict (payload : json) (prompt : string) :
  request_prompt payload = Ok prompt -> exists items, payload = JObj items.
Proof.
  destruct payload; try discriminate. eauto.
Qed.

End Paths.

Section Calls.

Variable refuses : AzureOpenAI -> option string.
Variable create : CreateArgs -> result Completion.

(** A request makes at most one call, and only with a normalised list. *)
Lemma handler_calls (request : Request) (w : World) :
  calls (snd (generate_route_plan refuses create request w)) = calls w
  \/ exists args history prompt,
       calls (snd (generate_route_plan refuses create request w)) = (calls w ++ [args])%list
       /\ _normalize_messages history prompt = Ok (messages args).
Proof.
  unfold generate_route_plan, bind, lift.
  destruct (request_prompt (request_payload request)) as [prompt|e] eqn:Hp; [|now left].
  destruct (request_messages (request_payload request)) as [um|e]; [|now left].
  destruct (negb (truthy (JStr prompt)) && negb (truthy um)); [now left|].
  destruct (_normalize_messages (list_or_empty um) prompt) as [ms|e] eqn:Hn; [|now left].
  destruct (request_prompt_dict _ _ Hp) as [items ->].
  destruct (fst (build_client refuses w)) as [config|e] eqn:Hb.
  - right. exists (upstream_args config items ms), (list_or_empty um), prompt.
    rewrite (call_upstream_configured refuses create _ _ _ _ Hb). auto.
  - left. now rewrite (call_upstream_unconfigured refuses create _ _ _ _ Hb).
Qed.

(** Without configuration no path reaches the completion service. *)
Lemma handler_unconfigured_calls (request : Request) (w : World) (e : exn) :
  fst (build_client refuses w) = Raise e ->
  snd (generate_route_plan refuses create request w) = w.
Proof.
  intro Hb. unfold generate_route_plan, bind, lift.
  destruct (request_prompt (request_payload request)) as [prompt|e1]; [|reflexivity].
  destruct (request_messages (request_payload request)) as [um|e1]; [|reflexivity].
  destruct (negb (truthy (JStr prompt)) && negb (truthy um)); [reflexivity|].
  destruct (_normalize_messages (list_or_empty um) prompt) as [ms|e1]; [|reflexivity].
  now rewrite (call_upstream_unconfigured refuses create _ _ _ _ Hb).
Qed.

End Calls.

Lemma spec_entry_shape (entry m : json) :
  spec_entry entry = Some m ->
  exists parts,
    m = chat_message (entry_field "role" entry) (JArr parts)
    /\ truthy (entry_field "role" entry) = true
    /\ (entry_field "content" entry = JArr parts
        \/ exists s, entry_field "content" entry = JStr s /\ parts = [text_part s]).
Proof.
  unfold spec_entry, lacks_role, lacks_content.
  destruct (truthy (entry_field "role" entry)); cbn [negb orb]; [|discriminate].
  destruct (entry_field "content" entry) as [| | | |s|parts|]; try discriminate;
    intro H; inversion H.
  - exists [text_part s]. repeat split. right. now exists s.
  - exists parts. repeat split. now left.
Qed.

Lemma same_keys_two (k1 k2 : string) (v1 v2 : json) :
  same_keys [(k1, v1); (k2, v2)] [k1; k2].
Proof.
  intro key. cbn [lookup In]. destruct (String.eqb key k1) eqn:H1.
  - apply String.eqb_eq in H1. subst. split; [auto | discriminate].
  - destruct (String.eqb key k2) eqn:H2.
    + apply String.eqb_eq in H2. subst. split; [auto | discriminate].
    + apply String.eqb_neq in H1, H2.
      split; [congruence | intros [H | [H | []]]; congruence].
Qed.

Lemma equals_text_part_wrap (s t : string) :
  equals_text_part (text_part s) t <-> s = t.
Proof.
  unfold equals_text_part, text_part. split.
  - intros (items & H & _ & _ & Ht). inversion H. subst items.
    cbn in Ht. congruence.
  - intros ->. eexists. repeat split; try apply same_keys_two.
Qed.

Lemma equals_system_chat (role content : json) :
  equals_system_message (chat_message role content) <->
  role = JStr "system"
  /\ exists part, content = JArr [part] /\ equals_text_part part SYSTEM_PROMPT.
Proof.
  unfold equals_system_message, chat_message. split.
  - intros (items & part & H & _ & Hr & Hc & Hp). inversion H. subst items.
    cbn in Hr, Hc. inversion Hr. inversion Hc. eauto.
  - intros (-> & part & -> & Hp). eexists. exists part.
    repeat split; try apply same_keys_two. exact Hp.
Qed.

Lemma system_message_equal : equals_system_message system_message.
Proof.
  apply equals_system_chat. split; [reflexivity|].
  eexists. split; [reflexivity|]. now apply equals_text_part_wrap.
Qed.

Lemma user_message_not_system (prompt : string) :
  ~ equals_system_message (user_message prompt).
Proof. intro H. apply equals_system_chat in H. destruct H as [H _]. discriminate H. Qed.

(** What the filter keeps of an entry equals the system message exactly
    when the entry restates it. *)
Lemma spec_entry_restates (entry : json) :
  (exists m, spec_entry entry = Some m /\ equals_system_message m) <->
  restates_system entry.
Proof.
  unfold restates_system. split.
  - intros (m & Hs & Hm).
    destruct (spec_entry_shape _ _ Hs) as (parts & -> & _ & Hc).
    apply equals_system_chat in Hm. destruct Hm as (Hr & part & Hp & Ht).
    split; [exact Hr|]. inversion Hp. subst parts.
    destruct Hc as [Hc | (s & Hc & Hw)].
    + right. eauto.
    + left. inversion Hw. subst part. apply equals_text_part_wrap in Ht. now subst s.
  - intros (Hr & Hc). unfold spec_entry, lacks_role, lacks_content. rewrite Hr.
    destruct Hc as [Hc | (part & Hc & Ht)]; rewrite Hc; cbn [truthy String.eqb negb orb];
      eexists; (split; [reflexivity|]); apply equals_system_chat; split; try reflexivity.
    + eexists. split; [reflexivity|]. now apply equals_text_part_wrap.
    + eauto.
Qed.

(** C1, as amended.  The list [_normalize_messages] returns begins with the
    system message: role "system", content the single text part holding
    [SYSTEM_PROMPT].  The normaliser puts it there once; a message equal to
    it stands further on exactly when an entry of the supplied history
    restates it (role "system" with the instruction text, or with the one
    text part holding it, as content), so it occurs exactly once whenever no
    entry of the history does.  Equal is Python's [==], which does not look
    at the order of a dict's items. *)
Theorem system_message_first (history : list json) (prompt : string) (out : list json) :
  _normalize_messages history prompt = Ok out ->
  exists rest,
    out = system_message :: rest
    /\ system_message = chat_message (JStr "system") (JArr [text_part SYSTEM_PROMPT])
    /\ ((exists m, In m rest /\ equals_system_message m)
        <-> exists entry, In entry history /\ restates_system entry)
    /\ ((forall entry, In entry history -> ~ restates_system entry) ->
        occurs_once equals_system_message out).
Proof.
  intro H. pose proof (normalize_messages_ok _ _ _ H) as Hd.
  rewrite (normalize_messages_spec _ prompt Hd) in H. inversion H as [Hout]. clear H.
  exists (spec_history history ++ prompt_tail prompt)%list.
  assert (Hin : (exists m, In m (spec_history history ++ prompt_tail prompt)
                           /\ equals_system_message m)
                <-> exists entry, In entry history /\ restates_system entry).
  { split.
    - intros (m & Hm & He). apply in_app_iff in Hm. destruct Hm as [Hm | Hm].
      + apply spec_history_in in Hm. destruct Hm as (entry & Hi & Hs).
        exists entry. split; [exact Hi|]. apply spec_entry_restates. eauto.
      + unfold prompt_tail in Hm. destruct (truthy (JStr prompt)); [|contradiction].
        destruct Hm as [<- | []]. now apply user_message_not_system in He.
    - intros (entry & Hi & Hr). apply spec_entry_restates in Hr.
      destruct Hr as (m & Hs & He). exists m. split; [|exact He].
      apply in_app_iff. left. apply spec_history_in. eauto. }
  split; [reflexivity|]. split; [reflexivity|]. split; [exact Hin|].
  intro Hno. exists [], system_message, (spec_history history ++ prompt_tail prompt)%list.
  split; [reflexivity|]. split; [exact system_message_equal|]. split; [intros x []|].
  intros x Hx He. assert (Hr : exists m, In m (spec_history history ++ prompt_tail prompt)
                                         /\ equals_system_message m) by eauto.
  apply Hin in Hr. destruct Hr as (entry & Hi & Hr). exact (Hno entry Hi Hr).
Qed.

Lemma system_message_first_witness :
  exists rest,
    [system_message; user_message "hi"] = system_message :: rest
    /\ system_message = chat_message (JStr "system") (JArr [text_part SYSTEM_PROMPT])
    /\ ((exists m, In m rest /\ equals_system_message m)
        <-> exists entry, In entry [JObj [("role", JNull)]] /\ restates_system entry)
    /\ ((forall entry, In entry [JObj [("role", JNull)]] -> ~ restates_system entry) ->
        occurs_once equals_system_message [system_message; user_message "hi"]).
Proof.
  apply (system_message_first [JObj [("role", JNull)]] "hi"). reflexivity.
Defined.

(** C1, as stated, fails: a history entry with role "system" and the
    instruction text as its content makes the system message occur twice. *)
Lemma system_message_twice :
  exists out,
    _normalize_messages [chat_message (JStr "system") (JStr SYSTEM_PROMPT)] "" = Ok out
    /\ ~ occurs_once equals_system_message out.
Proof.
  exists [system_message; system_message]. split; [reflexivity|].
  intros (before & m & after & H & _ & Hb & Ha).
  destruct before as [|x before]; cbn [app] in H; inversion H; subst.
  - apply (Ha system_message); [now left | exact system_message_equal].
  - apply (Hb system_message); [now left | exact system_message_equal].
Qed.

(** ** Requests *)

Lemma request_messages_dict (items : list (string * json)) :
  request_messages (JObj items) = Ok (py_or (entry_field "messages" (JObj items)) (JArr [])).
Proof. reflexivity. Qed.

Lemma py_or_falsy (a b : json) : truthy a = false -> py_or a b = b.
Proof. unfold py_or. now intros ->. Qed.

Lemma py_or_truthy (a b : json) : truthy a = true -> py_or a b = a.
Proof. unfold py_or. now intros ->. Qed.

(** C2.  When the trimmed prompt, after the [user_prompt] fallback, is empty
    and the [messages] field is empty or absent, the endpoint answers 400 with
    an error message and leaves the world as it was: nothing is resolved and
    no call to the completion service is made. *)
Theorem empty_request_rejected
        (refuses : AzureOpenAI -> option string)
        (create : CreateArgs -> result Completion) (request : Request) (w : World) :
  request_prompt (request_payload request) = Ok "" ->
  truthy (entry_field "messages" (request_payload request)) = false ->
  generate_route_plan refuses create request w =
  (Ok {| status := 400; body := JObj [("error", JStr missing_input_message)] |}, w)
  /\ calls (snd (generate_route_plan refuses create request w)) = calls w.
Proof.
  intros Hp Hm. destruct (request_prompt_dict _ _ Hp) as [items Hi].
  assert (H : generate_route_plan refuses create request w =
              (Ok {| status := 400; body := JObj [("error", JStr missing_input_message)] |}, w)).
  { apply (handler_rejects refuses create request w "" (JArr [])); try reflexivity; [exact Hp|].
    rewrite Hi in *. rewrite request_messages_dict. now rewrite (py_or_falsy _ _ Hm). }
  split; [exact H | now rewrite H].
Qed.

Lemma empty_request_rejected_witness :
  generate_route_plan builds_all unreachable
    {| decoded_body := Some (JObj [("prompt", JStr "  "); ("messages", JArr [])]) |}
    blank_world =
  (Ok {| status := 400; body := JObj [("error", JStr missing_input_message)] |}, blank_world)
  /\ calls (snd (generate_route_plan builds_all unreachable
       {| decoded_body := Some (JObj [("prompt", JStr "  "); ("messages", JArr [])]) |}
       blank_world)) = calls blank_world.
Proof.
  apply (empty_request_rejected builds_all unreachable
           {| decoded_body := Some (JObj [("prompt", JStr "  "); ("messages", JArr [])]) |}
           blank_world); reflexivity.
Defined.

Lemma request_payload_falsy (v : json) :
  truthy v = false -> request_payload {| decoded_body := Some v |} = JObj [].
Proof. unfold request_payload, get_json_silent. cbn. apply py_or_falsy. Qed.

Lemma request_payload_truthy (v : json) :
  truthy v = true -> request_payload {| decoded_body := Some v |} = v.
Proof. unfold request_payload, get_json_silent. cbn. apply py_or_truthy. Qed.

(** C3, as the code behaves.  A body that does not decode, and one that decodes to a
    falsy value, is handled as the empty object is, which answers 400.  A
    body that decodes to a truthy value other than an object (a non-empty
    array or string, a non-zero number, [true]) is not: [payload.get] raises
    [AttributeError] out of the handler before any validation. *)
Theorem non_object_body (refuses : AzureOpenAI -> option string)
        (create : CreateArgs -> result Completion) (w : World) :
  generate_route_plan refuses create {| decoded_body := None |} w =
  generate_route_plan refuses create {| decoded_body := Some (JObj []) |} w
  /\ generate_route_plan refuses create {| decoded_body := Some (JObj []) |} w =
     (Ok {| status := 400; body := JObj [("error", JStr missing_input_message)] |}, w)
  /\ (forall v, truthy v = false ->
                generate_route_plan refuses create {| decoded_body := Some v |} w =
                generate_route_plan refuses create {| decoded_body := Some (JObj []) |} w)
  /\ (forall v, truthy v = true -> is_dict v = false ->
                generate_route_plan refuses create {| decoded_body := Some v |} w =
                (Raise (AttributeError (type_name v) "get"), w)).
Proof.
  repeat split.
  - intros v Hv. unfold generate_route_plan.
    rewrite (request_payload_falsy v Hv). reflexivity.
  - intros v Hv Hd. unfold generate_route_plan, bind, lift.
    rewrite (request_payload_truthy v Hv).
    unfold request_prompt, raw_prompt. rewrite (method_get_not_dict _ _ Hd). reflexivity.
Qed.

Lemma non_object_body_witness :
  generate_route_plan builds_all unreachable {| decoded_body := Some (JArr [JInt 1]) |} blank_world =
  (Raise (AttributeError "list" "get"), blank_world).
Proof.
  apply (non_object_body builds_all unreachable blank_world); reflexivity.
Defined.

(** C4, as amended.  On a history whose entries are all dicts
    [_normalize_messages] raises nothing and returns the system message, then
    what the specification's filter keeps of the history, entry by entry in
    the order given, then the prompt's message if there is one.  The filter:
    an entry lacking a role or lacking content is dropped; content that is
    text is wrapped as a single text part; content that is a list is passed
    through as it is; an entry with content of any other shape is dropped. *)
Theorem history_filter (history : list json) (prompt : string) :
  Forall (fun e => is_dict e = true) history ->
  _normalize_messages history prompt =
  Ok (system_message :: spec_history history ++ prompt_tail prompt)%list
  /\ (forall before entry after, history = (before ++ entry :: after)%list ->
        spec_history history =
        (spec_history before
         ++ match spec_entry entry with Some m => [m] | None => [] end
         ++ spec_history after)%list).
Proof.
  intro H. split; [exact (normalize_messages_spec _ _ H)|].
  intros before entry after ->. rewrite spec_history_app. cbn [spec_history].
  now destruct (spec_entry entry).
Qed.

Lemma history_filter_witness :
  _normalize_messages
    [chat_message (JStr "user") (JStr "hi");
     JObj [("content", JStr "no role")];
     JObj [("role", JStr "user")];
     chat_message (JStr "user") (JInt 7);
     chat_message (JStr "assistant") (JArr [text_part "hello"])]
    "schedule a visit" =
  Ok [system_message;
      chat_message (JStr "user") (JArr [text_part "hi"]);
      chat_message (JStr "assistant") (JArr [text_part "hello"]);
      user_message "schedule a visit"].
Proof.
  exact (proj1 (history_filter
    [chat_message (JStr "user") (JStr "hi");
     JObj [("content", JStr "no role")];
     JObj [("role", JStr "user")];
     chat_message (JStr "user") (JInt 7);
     chat_message (JStr "assistant") (JArr [text_part "hello"])]
    "schedule a visit"
    ltac:(repeat constructor))).
Defined.

(** C4, as stated, fails: an entry of the history that is not a dict, here
    [None], is not skipped; reading its role raises. *)
Lemma null_entry_raises :
  _normalize_messages [JNull; chat_message (JStr "user") (JStr "hi")] "plan"
  = Raise (AttributeError "NoneType" "get").
Proof. reflexivity. Qed.

Lemma prompt_tail_eqb (prompt : string) :
  prompt_tail prompt = if String.eqb prompt "" then [] else [user_message prompt].
Proof. unfold prompt_tail. cbn [truthy]. now destruct (String.eqb prompt ""). Qed.

Lemma request_prompt_raw (payload : json) (raw : string) :
  raw_prompt payload = Ok (JStr raw) -> request_prompt payload = Ok (strip raw).
Proof. unfold request_prompt. now intros ->. Qed.

(** C5.  The handler trims the prompt and hands the trimmed text to
    [_normalize_messages], which appends the trailing "user" message,
    wrapping the text it is given as one text part, exactly when that text is
    not empty.  So for every request the trailing message is there exactly
    when the prompt is not empty after trimming; with a prompt that is empty
    or only whitespace and a history, the list is the system message followed
    by the kept history in the order given, and nothing after it. *)
Theorem trailing_user_message :
  (forall history prompt,
      Forall (fun e => is_dict e = true) history ->
      _normalize_messages history prompt =
      Ok (system_message :: spec_history history
            ++ (if String.eqb prompt "" then [] else [user_message prompt]))%list)
  /\ (forall refuses create request w raw um,
         raw_prompt (request_payload request) = Ok (JStr raw) ->
         request_messages (request_payload request) = Ok um ->
         Forall (fun e => is_dict e = true) (list_or_empty um) ->
         String.eqb (strip raw) "" = false \/ truthy um = true ->
         generate_route_plan refuses create request w =
         call_upstream refuses create (request_payload request)
           (system_message :: spec_history (list_or_empty um)
              ++ (if String.eqb (strip raw) "" then [] else [user_message (strip raw)]))%list
           w).
Proof.
  split.
  - intros history prompt H. rewrite <- prompt_tail_eqb. now apply normalize_messages_spec.
  - intros refuses create request w raw um Hr Hm Hd Hv.
    apply (handler_proceeds refuses create request w (strip raw) um).
    + now apply request_prompt_raw.
    + exact Hm.
    + cbn [truthy]. destruct Hv as [-> | ->]; [reflexivity | apply orb_true_r].
    + rewrite <- prompt_tail_eqb. now apply normalize_messages_spec.
Qed.

Lemma trailing_user_message_witness :
  generate_route_plan builds_all unreachable
    {| decoded_body :=
         Some (JObj [("prompt", JStr "  ");
                     ("messages", JArr [chat_message (JStr "user") (JStr "hi")])]) |}
    blank_world =
  call_upstream builds_all unreachable
    (JObj [("prompt", JStr "  ");
           ("messages", JArr [chat_message (JStr "user") (JStr "hi")])])
    [system_message; chat_message (JStr "user") (JArr [text_part "hi"])]
    blank_world.
Proof.
  apply (proj2 trailing_user_message builds_all unreachable
           {| decoded_body :=
                Some (JObj [("prompt", JStr "  ");
                            ("messages", JArr [chat_message (JStr "user") (JStr "hi")])]) |}
           blank_world "  " (JArr [chat_message (JStr "user") (JStr "hi")])).
  - reflexivity.
  - reflexivity.
  - repeat constructor.
  - right. reflexivity.
Defined.

(** ** Errors *)

(** The response an [except] clause makes of an exception. *)
Lemma outcome_response_raise (e : exn) :
  outcome_response (Raise e) =
  Ok (match e with
      | ConfigurationError msg =>
        {| status := 500; body := JObj [("error", JStr msg)] |}
      | _ =>
        {| status := 502;
           body := JObj [("error", JStr upstream_failure_message);
                         ("detail", JStr (exn_str e))] |}
      end).
Proof. now destruct e. Qed.

(** C6, as amended.  Every error raised by configuration resolution or by
    the call to the completion service is caught in the handler and answered
    in JSON: a [ConfigurationError] with 500 and its message in [error], any
    other failure (a client the library will not build, a failed call) with
    502, a generic [error] and the raw text in [detail].  This is so for
    every request whose body is an object (or does not decode, or is falsy),
    whose prompt is text or falsy and whose [messages] holds only objects,
    once it is past the 400 check; with settings missing the answer is 500
    with the fixed message and the world is left as it was. *)
Theorem errors_become_responses
        (refuses : AzureOpenAI -> option string)
        (create : CreateArgs -> result Completion) (request : Request) (w : World)
        (items : list (string * json)) (prompt : string) (um : json) :
  request_payload request = JObj items ->
  request_prompt (JObj items) = Ok prompt ->
  request_messages (JObj items) = Ok um ->
  Forall (fun e => is_dict e = true) (list_or_empty um) ->
  truthy (JStr prompt) || truthy um = true ->
  (forall e, fst (build_client refuses w) = Raise e ->
     generate_route_plan refuses create request w =
     (Ok (match e with
          | ConfigurationError msg =>
            {| status := 500; body := JObj [("error", JStr msg)] |}
          | _ =>
            {| status := 502;
               body := JObj [("error", JStr upstream_failure_message);
                             ("detail", JStr (exn_str e))] |}
          end), w))
  /\ (cache w = None -> settings_missing (environ w) ->
      generate_route_plan refuses create request w =
      (Ok {| status := 500; body := JObj [("error", JStr configuration_message)] |}, w))
  /\ (forall config exc,
         fst (build_client refuses w) = Ok config ->
         create (upstream_args config items
                   (system_message :: spec_history (list_or_empty um)
                      ++ prompt_tail prompt)%list) = Raise exc ->
         fst (generate_route_plan refuses create request w) =
         Ok (match exc with
             | ConfigurationError msg =>
               {| status := 500; body := JObj [("error", JStr msg)] |}
             | _ =>
               {| status := 502;
                  body := JObj [("error", JStr upstream_failure_message);
                                ("detail", JStr (exn_str exc))] |}
             end)).
Proof.
  intros Hi Hp Hm Hd Hv.
  assert (Hgo : generate_route_plan refuses create request w =
                call_upstream refuses create (JObj items)
                  (system_message :: spec_history (list_or_empty um) ++ prompt_tail prompt)%list
                  w).
  { rewrite <- Hi. apply (handler_proceeds refuses create request w prompt um);
      rewrite ?Hi; auto using normalize_messages_spec. }
  rewrite Hgo.
  assert (Hraise : forall e, fst (build_client refuses w) = Raise e ->
            call_upstream refuses create (JObj items)
              (system_message :: spec_history (list_or_empty um) ++ prompt_tail prompt)%list w =
            (Ok (match e with
                 | ConfigurationError msg =>
                   {| status := 500; body := JObj [("error", JStr msg)] |}
                 | _ =>
                   {| status := 502;
                      body := JObj [("error", JStr upstream_failure_message);
                                    ("detail", JStr (exn_str e))] |}
                 end), w)).
  { intros e Hb. rewrite (call_upstream_unconfigured refuses create _ _ _ e Hb).
    now rewrite outcome_response_raise. }
  split; [exact Hraise | split].
  - intros Hc Hs. apply (Hraise (ConfigurationError configuration_message)).
    unfold build_client. rewrite Hc. now rewrite (build_client_body_missing _ Hs).
  - intros config exc Hb Hc. rewrite (call_upstream_configured refuses create _ _ _ _ Hb).
    cbn [fst]. rewrite Hc. apply outcome_response_raise.
Qed.

Lemma errors_become_responses_witness :
  generate_route_plan builds_none unreachable
    {| decoded_body := Some (JObj [("prompt", JStr "plan")]) |} configured_world
  = (Ok {| status := 502;
           body := JObj [("error", JStr upstream_failure_message);
                         ("detail", JStr "Invalid URL")] |},
     configured_world).
Proof.
  apply (proj1 (errors_become_responses builds_none unreachable
                  {| decoded_body := Some (JObj [("prompt", JStr "plan")]) |}
                  configured_world [("prompt", JStr "plan")] "plan" (JArr [])
                  eq_refl eq_refl eq_refl ltac:(constructor) eq_refl)
               (ClientError "Invalid URL")).
  reflexivity.
Defined.

(** C6, as stated, fails: an error raised before the guarded block leaves
    the handler as an exception.  A prompt that is a number has no [strip];
    a history entry that is text has no [get]. *)
Lemma exception_escapes :
  generate_route_plan builds_all unreachable
    {| decoded_body := Some (JObj [("prompt", JInt 5)]) |} blank_world
  = (Raise (AttributeError "int" "strip"), blank_world)
  /\ generate_route_plan builds_all unreachable
       {| decoded_body := Some (JObj [("messages", JArr [JStr "hi"])]) |} blank_world
     = (Raise (AttributeError "str" "get"), blank_world).
Proof. split; reflexivity. Qed.

(** ** The 200 response *)

(** C7, as the code behaves.  When the call to the completion service
    succeeds and the completion carries no usage, the endpoint answers 200
    with a JSON object of at most four fields: [content], the first choice's
    message content, or the empty text when there is no choice, no message or
    no content; [usage], [null]; [finish_reason], there only when the first
    choice has one; [message_role], there only when the first choice has a
    message.  When the completion carries its usage, the [jsonify] of line
    156 is handed an object it cannot encode: [TypeError] leaves the handler
    after the call was made, and no response is returned. *)
Theorem success_response
        (refuses : AzureOpenAI -> option string)
        (create : CreateArgs -> result Completion) (request : Request) (w : World)
        (items : list (string * json)) (prompt : string) (um : json)
        (config : Config) (completion : Completion) :
  request_payload request = JObj items ->
  request_prompt (JObj items) = Ok prompt ->
  request_messages (JObj items) = Ok um ->
  truthy (JStr prompt) || truthy um = true ->
  Forall (fun e => is_dict e = true) (list_or_empty um) ->
  fst (build_client refuses w) = Ok config ->
  create (upstream_args config items
            (system_message :: spec_history (list_or_empty um) ++ prompt_tail prompt)%list)
  = Ok completion ->
  (usage completion = None ->
   exists fields,
     fst (generate_route_plan refuses create request w)
     = Ok {| status := 200; body := JObj fields |}
     /\ lookup "content" fields =
        Some (JStr match choices completion with
                   | c :: _ =>
                     match message c with
                     | Some m => match content m with Some s => s | None => "" end
                     | None => ""
                     end
                   | [] => ""
                   end)
     /\ lookup "usage" fields = Some JNull
     /\ lookup "finish_reason" fields =
        match choices completion with
        | c :: _ =>
          match finish_reason c with
          | Some s => if String.eqb s "" then None else Some (JStr s)
          | None => None
          end
        | [] => None
        end
     /\ lookup "message_role" fields =
        match choices completion with
        | c :: _ =>
          match message c with
          | Some m => Some (JStr (role m))
          | None => None
          end
        | [] => None
        end
     /\ (forall key, lookup key fields <> None ->
                     In key ["content"; "usage"; "finish_reason"; "message_role"]))
  /\ (forall u, usage completion = Some u ->
        generate_route_plan refuses create request w =
        (Raise (TypeError "Object of type CompletionUsage is not JSON serializable"),
         {| environ := environ w;
            cache := Some config;
            calls := (calls w
                        ++ [upstream_args config items
                              (system_message :: spec_history (list_or_empty um)
                                 ++ prompt_tail prompt)%list])%list |})).
Proof.
  intros Hi Hp Hm Hv Hd Hb Hc.
  assert (Hrun : generate_route_plan refuses create request w =
                 (outcome_response (Ok completion),
                  {| environ := environ w;
                     cache := Some config;
                     calls := (calls w
                                 ++ [upstream_args config items
                                       (system_message :: spec_history (list_or_empty um)
                                          ++ prompt_tail prompt)%list])%list |})).
  { rewrite (handler_proceeds refuses create request w prompt um
               (system_message :: spec_history (list_or_empty um) ++ prompt_tail prompt)%list);
      rewrite ?Hi; auto using normalize_messages_spec.
    rewrite (call_upstream_configured refuses create _ _ _ _ Hb). now rewrite Hc. }
  rewrite Hrun. clear Hrun. unfold outcome_response, jsonify, response_payload.
  assert (Hkeys : forall (key : string) (l : list (string * json)),
             (forall k v, In (k, v) l ->
                          In k ["content"; "usage"; "finish_reason"; "message_role"]) ->
             lookup key l <> None ->
             In key ["content"; "usage"; "finish_reason"; "message_role"]).
  { intros key l Hl. induction l as [|[k v] l IH]; cbn [lookup]; [congruence|].
    destruct (String.eqb key k) eqn:Hk.
    - apply String.eqb_eq in Hk. subst k. intros _. apply (Hl key v). now left.
    - apply IH. intros k' v' Hin. apply (Hl k' v'). now right. }
  split.
  - intros ->. destruct (choices completion) as [|c cs].
    + eexists. split; [reflexivity|]. repeat split.
      intro key. apply Hkeys. cbn. intros k v [H | [H | []]]; inversion H; auto.
    + destruct (message c) as [m|]; destruct (finish_reason c) as [[|a s]|];
        (eexists; split; [reflexivity|]; repeat split;
         intro key; apply Hkeys; cbn;
         intros k v H; repeat destruct H as [H | H]; try contradiction; inversion H; auto).
  - intros u ->. destruct (choices completion) as [|c cs]; [reflexivity|].
    destruct (message c) as [m|]; destruct (finish_reason c) as [[|a s]|]; reflexivity.
Qed.

Lemma success_response_witness :
  generate_route_plan builds_all counting
    {| decoded_body := Some (JObj [("prompt", JStr "schedule a visit")]) |} configured_world
  = (Raise (TypeError "Object of type CompletionUsage is not JSON serializable"),
     {| environ := environ configured_world;
        cache := Some {| client := {| azure_endpoint := "https://example.openai.azure.com";
                                      api_key := "secret";
                                      api_version := "2025-01-01-preview" |};
                         deployment := "gpt" |};
        calls := (calls configured_world
                    ++ [upstream_args
                          {| client := {| azure_endpoint := "https://example.openai.azure.com";
                                          api_key := "secret";
                                          api_version := "2025-01-01-preview" |};
                             deployment := "gpt" |}
                          [("prompt", JStr "schedule a visit")]
                          (system_message :: spec_history (list_or_empty (JArr []))
                             ++ prompt_tail "schedule a visit")%list])%list |}).
Proof.
  apply (proj2 (success_response builds_all counting
                  {| decoded_body := Some (JObj [("prompt", JStr "schedule a visit")]) |}
                  configured_world [("prompt", JStr "schedule a visit")]
                  "schedule a visit" (JArr [])
                  {| client := {| azure_endpoint := "https://example.openai.azure.com";
                                  api_key := "secret";
                                  api_version := "2025-01-01-preview" |};
                     deployment := "gpt" |}
                  counted_completion
                  eq_refl eq_refl eq_refl eq_refl ltac:(constructor) eq_refl eq_refl)
               {| completion_tokens := 120; prompt_tokens := 900; total_tokens := 1020 |}).
  reflexivity.
Defined.

(** ** Configuration *)

Lemma build_client_body_version {refuses : AzureOpenAI -> option string}
      (env : environment) (config : Config) :
  build_client_body refuses env = Ok config ->
  api_version (client config) =
  match getenv env "AZURE_OPENAI_API_VERSION" with
  | Some v => v
  | None => "2025-01-01-preview"
  end.
Proof.
  unfold build_client_body.
  destruct (is_falsy (getenv_or env "AZURE_OPENAI_ENDPOINT" "ENDPOINT_URL")
            || is_falsy (getenv_or env "AZURE_OPENAI_DEPLOYMENT" "DEPLOYMENT_NAME")
            || is_falsy (getenv env "AZURE_OPENAI_API_KEY")); [discriminate|].
  match goal with |- context [refuses ?c] => destruct (refuses c) end; [discriminate|].
  intro H. inversion H. reflexivity.
Qed.

(** C8.  [build_client] is memoised: a configuration once returned is kept
    and returned by every later call, whatever the environment then holds.
    With nothing cached it raises [ConfigurationError], and then with the
    fixed message, exactly when the endpoint, the deployment or the API key
    is missing (each unset or empty, under its own name and under its
    fallback name where it has one); an unset API version becomes
    "2025-01-01-preview".  A failure changes nothing, so resolving again in
    the same state raises the same error, and a request handled while
    resolution fails makes no call to the completion service. *)
Theorem configuration_resolution (refuses : AzureOpenAI -> option string) :
  (forall w config w',
      build_client refuses w = (Ok config, w') ->
      cache w' = Some config
      /\ forall env made,
          build_client refuses {| environ := env; cache := cache w'; calls := made |}
          = (Ok config, {| environ := env; cache := cache w'; calls := made |}))
  /\ (forall w msg,
         cache w = None ->
         (fst (build_client refuses w) = Raise (ConfigurationError msg)
          <-> msg = configuration_message /\ settings_missing (environ w)))
  /\ (forall w config,
         cache w = None ->
         getenv (environ w) "AZURE_OPENAI_API_VERSION" = None ->
         fst (build_client refuses w) = Ok config ->
         api_version (client config) = "2025-01-01-preview")
  /\ (forall w e w',
         build_client refuses w = (Raise e, w') ->
         w' = w /\ build_client refuses w' = (Raise e, w'))
  /\ (forall create request w e,
         fst (build_client refuses w) = Raise e ->
         snd (generate_route_plan refuses create request w) = w
         /\ calls (snd (generate_route_plan refuses create request w)) = calls w).
Proof.
  assert (Hbody : forall w, cache w = None ->
                            fst (build_client refuses w)
                            = build_client_body refuses (environ w)).
  { intros w Hc. unfold build_client. rewrite Hc.
    now destruct (build_client_body refuses (environ w)). }
  split; [|split; [|split; [|split]]].
  - intros w config w' H. destruct (build_client_ok _ _ _ H) as (_ & _ & Hk).
    split; [exact Hk|]. intros env made. apply build_client_cached. exact Hk.
  - intros w msg Hc. rewrite (Hbody w Hc). split.
    + intro H. apply build_client_body_raises in H.
      destruct H as [[H Hs] | [_ [text H]]]; [|discriminate H].
      inversion H. auto.
    + intros [-> Hs]. now apply build_client_body_missing.
  - intros w config Hc Hv H. rewrite (Hbody w Hc) in H.
    rewrite (build_client_body_version _ _ H). now rewrite Hv.
  - intros w e w' H. destruct (build_client_raise _ _ _ H) as (-> & _ & _). auto.
  - intros create request w e H.
    rewrite (handler_unconfigured_calls refuses create request w e H). auto.
Qed.

Lemma configuration_resolution_witness :
  fst (build_client builds_none blank_world)
  = Raise (ConfigurationError configuration_message)
  <-> configuration_message = configuration_message /\ settings_missing (environ blank_world).
Proof.
  apply (proj1 (proj2 (configuration_resolution builds_none))
               blank_world configuration_message).
  reflexivity.
Defined.

(** ** Shapes the validation lets through *)

(** C9, as amended.  When [messages] is truthy but not a list and the
    trimmed prompt is empty, the 400 check is passed and the history counts
    as empty, so the normalised list is the system message alone.  When
    configuration resolves, the completion service is called once, with that
    list, and the handler goes on with what the call came to; when it does
    not, the service is not called, and with settings missing the answer is
    500. *)
Theorem non_list_messages
        (refuses : AzureOpenAI -> option string)
        (create : CreateArgs -> result Completion) (request : Request) (w : World)
        (items : list (string * json)) :
  request_payload request = JObj items ->
  request_prompt (JObj items) = Ok "" ->
  truthy (entry_field "messages" (JObj items)) = true ->
  (forall l, entry_field "messages" (JObj items) <> JArr l) ->
  _normalize_messages (list_or_empty (entry_field "messages" (JObj items))) ""
  = Ok [system_message]
  /\ (forall config,
         fst (build_client refuses w) = Ok config ->
         generate_route_plan refuses create request w =
         (outcome_response (create (upstream_args config items [system_message])),
          {| environ := environ w;
             cache := Some config;
             calls := (calls w ++ [upstream_args config items [system_message]])%list |}))
  /\ (forall e,
         fst (build_client refuses w) = Raise e ->
         generate_route_plan refuses create request w = (outcome_response (Raise e), w))
  /\ (cache w = None -> settings_missing (environ w) ->
      generate_route_plan refuses create request w =
      (Ok {| status := 500; body := JObj [("error", JStr configuration_message)] |}, w)).
Proof.
  intros Hi Hp Ht Hl.
  assert (He : list_or_empty (entry_field "messages" (JObj items)) = []).
  { destruct (entry_field "messages" (JObj items)) as [| | | | |l|]; try reflexivity.
    now destruct (Hl l). }
  assert (Hgo : generate_route_plan refuses create request w =
                call_upstream refuses create (JObj items) [system_message] w).
  { rewrite <- Hi.
    apply (handler_proceeds refuses create request w ""
             (entry_field "messages" (JObj items)));
      rewrite ?Hi.
    - exact Hp.
    - rewrite request_messages_dict. now rewrite (py_or_truthy _ _ Ht).
    - rewrite Ht. apply orb_true_r.
    - now rewrite He. }
  split; [now rewrite He | split; [|split]].
  - intros config Hb. rewrite Hgo. now apply call_upstream_configured.
  - intros e Hb. rewrite Hgo. now apply call_upstream_unconfigured.
  - intros Hc Hs. rewrite Hgo.
    rewrite (call_upstream_unconfigured refuses create _ _ _
               (ConfigurationError configuration_message)); [reflexivity|].
    unfold build_client. rewrite Hc. now rewrite (build_client_body_missing _ Hs).
Qed.

Lemma non_list_messages_witness :
  generate_route_plan builds_all answering
    {| decoded_body := Some (JObj [("messages", JStr "earlier talk")]) |} configured_world
  = (outcome_response
       (answering
          (upstream_args
             {| client := {| azure_endpoint := "https://example.openai.azure.com";
                             api_key := "secret";
                             api_version := "2025-01-01-preview" |};
                deployment := "gpt" |}
             [("messages", JStr "earlier talk")] [system_message])),
     {| environ := environ configured_world;
        cache := Some {| client := {| azure_endpoint := "https://example.openai.azure.com";
                                      api_key := "secret";
                                      api_version := "2025-01-01-preview" |};
                         deployment := "gpt" |};
        calls := (calls configured_world
                    ++ [upstream_args
                          {| client := {| azure_endpoint := "https://example.openai.azure.com";
                                          api_key := "secret";
                                          api_version := "2025-01-01-preview" |};
                             deployment := "gpt" |}
                          [("messages", JStr "earlier talk")] [system_message]])%list |}).
Proof.
  apply (proj1 (proj2 (non_list_messages builds_all answering
           {| decoded_body := Some (JObj [("messages", JStr "earlier talk")]) |}
           configured_world [("messages", JStr "earlier talk")]
           eq_refl eq_refl eq_refl
           ltac:(intros l H; discriminate H)))
         {| client := {| azure_endpoint := "https://example.openai.azure.com";
                         api_key := "secret";
                         api_version := "2025-01-01-preview" |};
            deployment := "gpt" |}).
  reflexivity.
Defined.

(** C9, as stated, fails: with [messages] a non-empty text, no prompt and
    nothing configured, the 400 check is passed and yet no call to the
    completion service is attempted; the answer is 500. *)
Lemma non_list_messages_unconfigured :
  request_prompt (request_payload
                    {| decoded_body := Some (JObj [("messages", JStr "earlier talk")]) |})
  = Ok ""
  /\ truthy (JStr "earlier talk") = true
  /\ generate_route_plan builds_all unreachable
       {| decoded_body := Some (JObj [("messages", JStr "earlier talk")]) |} blank_world
     = (Ok {| status := 500; body := JObj [("error", JStr configuration_message)] |},
        blank_world)
  /\ calls blank_world = [].
Proof. repeat split. Qed.

(** C10.  The loop's test on content is [content is None] and nothing more;
    its test on the role is truthiness.  Whatever stands before and after it
    in the history: an entry with a role and the empty text as content is
    kept, wrapped as one text part with empty text; an entry whose content is
    [None], a boolean, a number or an object is dropped, the result being
    that of the history without it; so is an entry whose role is falsy
    ([None], the empty text). *)
Theorem content_and_role_checks
        (before after : list json) (items : list (string * json)) (prompt : string) :
  (truthy (entry_field "role" (JObj items)) = true ->
   entry_field "content" (JObj items) = JStr "" ->
   forall kept_before kept_after,
     _normalize_messages before "" = Ok (system_message :: kept_before) ->
     _normalize_messages after "" = Ok (system_message :: kept_after) ->
     _normalize_messages (before ++ JObj items :: after) prompt =
     Ok (system_message :: kept_before
           ++ chat_message (entry_field "role" (JObj items)) (JArr [text_part ""])
           :: kept_after ++ prompt_tail prompt)%list)
  /\ ((entry_field "content" (JObj items) = JNull
       \/ (exists b, entry_field "content" (JObj items) = JBool b)
       \/ (exists n, entry_field "content" (JObj items) = JInt n)
       \/ (exists f, entry_field "content" (JObj items) = JFloat f)
       \/ (exists o, entry_field "content" (JObj items) = JObj o)) ->
      _normalize_messages (before ++ JObj items :: after) prompt =
      _normalize_messages (before ++ after) prompt)
  /\ (truthy (entry_field "role" (JObj items)) = false ->
      _normalize_messages (before ++ JObj items :: after) prompt =
      _normalize_messages (before ++ after) prompt).
Proof.
  assert (Hskip : spec_entry (JObj items) = None ->
                  _normalize_messages (before ++ JObj items :: after) prompt =
                  _normalize_messages (before ++ after) prompt).
  { intro Hs. unfold _normalize_messages. rewrite !normalize_loop_app.
    destruct (normalize_loop before [system_message]) as [out|e]; [|reflexivity].
    cbn [rbind]. rewrite (normalize_loop_step (JObj items) after out eq_refl).
    now rewrite Hs. }
  split; [|split].
  - intros Hr Hc kept_before kept_after Hb Ha.
    pose proof (normalize_messages_ok _ _ _ Hb) as Hdb.
    pose proof (normalize_messages_ok _ _ _ Ha) as Hda.
    rewrite (normalize_messages_spec _ _ Hdb) in Hb.
    rewrite (normalize_messages_spec _ _ Hda) in Ha.
    unfold prompt_tail in Hb, Ha. cbn [truthy String.eqb negb] in Hb, Ha.
    rewrite app_nil_r in Hb, Ha. inversion Hb as [Hkb]. inversion Ha as [Hka].
    rewrite normalize_messages_spec.
    + rewrite spec_history_app. cbn [spec_history].
      unfold spec_entry, lacks_role, lacks_content. rewrite Hr, Hc. cbn [negb orb].
      now rewrite <- app_assoc.
    + apply Forall_app. split; [exact Hdb | constructor; [reflexivity | exact Hda]].
  - intro Hc. apply Hskip. unfold spec_entry, lacks_content.
    destruct Hc as [Hc | [[b Hc] | [[n Hc] | [[f Hc] | [o Hc]]]]]; rewrite Hc;
      now destruct (lacks_role (JObj items)).
  - intro Hr. apply Hskip. unfold spec_entry, lacks_role. now rewrite Hr.
Qed.

Lemma content_and_role_checks_witness :
  _normalize_messages
    ([chat_message (JStr "user") (JStr "hi")]
       ++ chat_message (JStr "assistant") (JStr "")
       :: [chat_message (JStr "user") (JStr "again")])
    "" =
  Ok [system_message;
      chat_message (JStr "user") (JArr [text_part "hi"]);
      chat_message (JStr "assistant") (JArr [text_part ""]);
      chat_message (JStr "user") (JArr [text_part "again"])]
  /\ _normalize_messages
       ([chat_message (JStr "user") (JStr "hi")]
          ++ chat_message (JStr "") (JStr "lost")
          :: [chat_message (JStr "user") (JStr "again")])
       "" =
     _normalize_messages
       ([chat_message (JStr "user") (JStr "hi")]
          ++ [chat_message (JStr "user") (JStr "again")])
       "".
Proof.
  split.
  - apply (proj1 (content_and_role_checks
             [chat_message (JStr "user") (JStr "hi")]
             [chat_message (JStr "user") (JStr "again")]
             [("role", JStr "assistant"); ("content", JStr "")] "")
           eq_refl eq_refl
           [chat_message (JStr "user") (JArr [text_part "hi"])]
           [chat_message (JStr "user") (JArr [text_part "again"])]
           eq_refl eq_refl).
  - apply (proj2 (proj2 (content_and_role_checks
             [chat_message (JStr "user") (JStr "hi")]
             [chat_message (JStr "user") (JStr "again")]
             [("role", JStr ""); ("content", JStr "lost")] ""))
           eq_refl).
Defined.

(** * Further properties of the code *)

(** ** When the normaliser raises *)

Lemma normalize_loop_raises (history acc : list json) (e : exn) :
  normalize_loop history acc = Raise e <->
  exists before entry after,
    history = (before ++ entry :: after)%list
    /\ Forall (fun x => is_dict x = true) before
    /\ is_dict entry = false
    /\ e = AttributeError (type_name entry) "get".
Proof.
  revert acc. induction history as [|x rest IH]; intro acc.
  - split; [discriminate|]. intros (before & entry & after & H & _).
    now destruct before.
  - destruct (is_dict x) eqn:Hd.
    + rewrite (normalize_loop_step _ _ _ Hd), IH. split.
      * intros (before & entry & after & -> & Hb & He & ->).
        exists (x :: before), entry, after. repeat split; auto.
      * intros (before & entry & after & H & Hb & He & ->).
        destruct before as [|y before]; cbn [app] in H; inversion H; subst.
        -- congruence.
        -- exists before, entry, after. inversion Hb. auto.
    + rewrite (normalize_loop_not_dict _ _ _ Hd). split.
      * intro H. inversion H. exists [], x, rest. repeat split; auto.
      * intros (before & entry & after & H & Hb & He & ->).
        destruct before as [|y before]; cbn [app] in H; inversion H; subst.
        -- reflexivity.
        -- inversion Hb. congruence.
Qed.

(** X1.  [_normalize_messages] raises exactly when the history holds an
    entry that is not a dict; the error is the [AttributeError] of the first
    such entry's [get], named after that entry's type, and nothing after that
    entry is looked at.  The prompt plays no part. *)
Theorem normalize_raises (history : list json) (prompt : string) (e : exn) :
  _normalize_messages history prompt = Raise e <->
  exists before entry after,
    history = (before ++ entry :: after)%list
    /\ Forall (fun x => is_dict x = true) before
    /\ is_dict entry = false
    /\ e = AttributeError (type_name entry) "get".
Proof.
  rewrite <- (normalize_loop_raises history [system_message] e).
  unfold _normalize_messages.
  destruct (normalize_loop history [system_message]) as [out|e']; cbn [rbind].
  - split; discriminate.
  - reflexivity.
Qed.

(** ** What the normalised list is made of *)

Lemma spec_history_length (history : list json) :
  (List.length (spec_history history) <= List.length history)%nat.
Proof.
  induction history as [|entry rest IH]; cbn [spec_history List.length]; [lia|].
  destruct (spec_entry entry); cbn [List.length]; lia.
Qed.

(** X2.  Every message of the list [_normalize_messages] returns is a dict
    of exactly the two items role and content, in which the role is truthy
    and the content is a list: whatever other items a history entry carries
    are left behind.  The list is never empty and is at most two longer than
    the history. *)
Theorem normalized_shape (history : list json) (prompt : string) (out : list json) :
  _normalize_messages history prompt = Ok out ->
  (forall m, In m out ->
             exists role parts, m = chat_message role (JArr parts) /\ truthy role = true)
  /\ (1 <= List.length out <= List.length history + 2)%nat.
Proof.
  intro H. pose proof (normalize_messages_ok _ _ _ H) as Hd.
  rewrite (normalize_messages_spec _ prompt Hd) in H. inversion H as [Hout]. clear H.
  split.
  - intros m [<- | Hm].
    + exists (JStr "system"), [text_part SYSTEM_PROMPT]. split; reflexivity.
    + apply in_app_iff in Hm. destruct Hm as [Hm | Hm].
      * apply spec_history_in in Hm. destruct Hm as (entry & _ & Hs).
        destruct (spec_entry_shape _ _ Hs) as (parts & -> & Hr & _). eauto.
      * unfold prompt_tail in Hm. destruct (truthy (JStr prompt)); [|contradiction].
        destruct Hm as [<- | []].
        exists (JStr "user"), [text_part prompt]. split; reflexivity.
  - cbn [List.length]. rewrite length_app. pose proof (spec_history_length history).
    assert (List.length (prompt_tail prompt) <= 1)%nat.
    { unfold prompt_tail. destruct (truthy (JStr prompt)); cbn; lia. }
    lia.
Qed.

Lemma normalized_shape_witness :
  (forall m,
      In m [system_message; chat_message (JStr "user") (JArr [text_part "hi"])] ->
      exists role parts, m = chat_message role (JArr parts) /\ truthy role = true)
  /\ (1 <= List.length [system_message; chat_message (JStr "user") (JArr [text_part "hi"])]
      <= List.length [JObj [("role", JStr "user"); ("name", JStr "amy");
                            ("content", JStr "hi")]] + 2)%nat.
Proof.
  apply (normalized_shape
           [JObj [("role", JStr "user"); ("name", JStr "amy"); ("content", JStr "hi")]] "").
  reflexivity.
Defined.

(** ** Every path of the handler *)

Lemma raw_prompt_dict (items : list (string * json)) :
  exists v, raw_prompt (JObj items) = Ok v.
Proof.
  unfold raw_prompt. rewrite !method_get_dict. cbn [rbind].
  destruct (truthy (entry_field "prompt" (JObj items))); cbn [rbind]; eauto.
Qed.

Lemma list_or_empty_falsy (um : json) : truthy um = false -> list_or_empty um = [].
Proof. destruct um as [| | | | |l|]; try reflexivity. now destruct l. Qed.

Lemma well_formed (request : Request) (items : list (string * json)) (raw : string)
      (um : json) :
  request_payload request = JObj items ->
  raw_prompt (JObj items) = Ok (JStr raw) ->
  request_messages (JObj items) = Ok um ->
  Forall (fun e => is_dict e = true) (list_or_empty um) ->
  ~ malformed request.
Proof.
  intros Hpay Hraw Hm Hd [H | [(v & Hv & Hs) | (l & v & Hl & Hin & Hv)]];
    rewrite Hpay in *.
  - discriminate H.
  - rewrite Hraw in Hv. inversion Hv. subst v. now apply (Hs raw).
  - rewrite Hm in Hl. inversion Hl. subst um. cbn [list_or_empty] in Hd.
    rewrite Forall_forall in Hd. rewrite (Hd v Hin) in Hv. discriminate Hv.
Qed.

Section Cases.

Variable refuses : AzureOpenAI -> option string.
Variable create : CreateArgs -> result Completion.

(** The four ways a request goes: an [AttributeError] before anything is
    done, the 400 of the validation, a failed resolution and its response, or
    the one call and what the handler makes of its outcome. *)
Lemma handler_cases (request : Request) (w : World) :
  (malformed request
   /\ exists t a, generate_route_plan refuses create request w = (Raise (AttributeError t a), w))
  \/ (~ malformed request
      /\ generate_route_plan refuses create request w =
         (Ok {| status := 400; body := JObj [("error", JStr missing_input_message)] |}, w))
  \/ (~ malformed request
      /\ exists e, fst (build_client refuses w) = Raise e
                   /\ generate_route_plan refuses create request w
                      = (outcome_response (Raise e), w))
  \/ (~ malformed request
      /\ exists items prompt um config,
          request_payload request = JObj items
          /\ request_prompt (JObj items) = Ok prompt
          /\ request_messages (JObj items) = Ok um
          /\ truthy (JStr prompt) || truthy um = true
          /\ Forall (fun e => is_dict e = true) (list_or_empty um)
          /\ fst (build_client refuses w) = Ok config
          /\ generate_route_plan refuses create request w =
             (outcome_response
                (create (upstream_args config items
                           (system_message :: spec_history (list_or_empty um)
                              ++ prompt_tail prompt)%list)),
              {| environ := environ w;
                 cache := Some config;
                 calls := (calls w
                             ++ [upstream_args config items
                                   (system_message :: spec_history (list_or_empty um)
                                      ++ prompt_tail prompt)%list])%list |})).
Proof.
  destruct (request_payload request) as [| | | | | |items] eqn:Hpay;
    try (left; split;
         [left; now rewrite Hpay
         |unfold generate_route_plan, bind, lift; rewrite Hpay; eexists; eexists; reflexivity]).
  destruct (raw_prompt_dict items) as [v Hraw].
  assert (Hstr : (exists raw, v = JStr raw) \/ (forall s, v <> JStr s)).
  { destruct v; try (right; intros s H; discriminate H). left. eauto. }
  destruct Hstr as [[raw ->] | Hns].
  2:{ left. split.
      - right. left. exists v. now rewrite Hpay.
      - unfold generate_route_plan, bind, lift, request_prompt. rewrite Hpay, Hraw.
        cbn [rbind]. destruct v; try (eexists; eexists; reflexivity).
        now destruct (Hns s). }
  pose proof (request_prompt_raw _ _ Hraw) as Hp.
  pose proof (request_messages_dict items) as Hm.
  set (um := py_or (entry_field "messages" (JObj items)) (JArr [])) in *.
  destruct (truthy (JStr (strip raw)) || truthy um) eqn:Hv.
  - destruct (_normalize_messages (list_or_empty um) (strip raw)) as [ms|e] eqn:Hn.
    + pose proof (normalize_messages_ok _ _ _ Hn) as Hd.
      pose proof (well_formed request items raw um Hpay Hraw Hm Hd) as Hwf.
      rewrite (normalize_messages_spec _ (strip raw) Hd) in Hn. inversion Hn as [Hms].
      assert (Hgo : generate_route_plan refuses create request w =
                    call_upstream refuses create (JObj items) ms w).
      { rewrite <- Hpay.
        apply (handler_proceeds refuses create request w (strip raw) um); rewrite ?Hpay; auto.
        rewrite <- Hms. now apply normalize_messages_spec. }
      destruct (fst (build_client refuses w)) as [config|e] eqn:Hb.
      * right. right. right. split; [exact Hwf|].
        exists items, (strip raw), um, config. repeat split; auto.
        rewrite Hgo, <- Hms. now apply call_upstream_configured.
      * right. right. left. split; [exact Hwf|]. exists e. split; [reflexivity|].
        rewrite Hgo. now apply call_upstream_unconfigured.
    + left. pose proof Hn as Hr. apply normalize_raises in Hr.
      destruct Hr as (before & entry & after & Hl & _ & He & ->). split.
      * right. right. destruct um as [| | | | |l|]; cbn [list_or_empty] in Hl;
          try (now destruct before).
        exists l, entry. rewrite Hpay. repeat split; auto.
        rewrite Hl. apply in_elt.
      * exists (type_name entry), "get".
        unfold generate_route_plan, bind, lift. rewrite Hpay, Hp, Hm, Hn.
        apply orb_true_iff in Hv.
        destruct (truthy (JStr (strip raw))); destruct (truthy um);
          try reflexivity. destruct Hv; discriminate.
  - apply orb_false_elim in Hv. destruct Hv as [Hv1 Hv2].
    right. left. split.
    + apply (well_formed request items raw um Hpay Hraw Hm).
      rewrite (list_or_empty_falsy _ Hv2). constructor.
    + apply (handler_rejects refuses create request w (strip raw) um); rewrite ?Hpay; auto.
Qed.

End Cases.

(** A completion without usage is encoded; one with its usage is not. *)
Lemma jsonify_response_payload (completion : Completion) :
  match usage completion with
  | None => exists fields, jsonify (response_payload completion) = Ok (JObj fields)
  | Some _ =>
    jsonify (response_payload completion)
    = Raise (TypeError "Object of type CompletionUsage is not JSON serializable")
  end.
Proof.
  unfold jsonify, response_payload.
  destruct (usage completion) as [u|]; destruct (choices completion) as [|ch cs];
    try destruct (message ch) as [m|]; try destruct (finish_reason ch) as [[|a s]|];
    cbn; eauto.
Qed.

Lemma outcome_response_cases (outcome : result Completion) :
  (exists response, outcome_response outcome = Ok response
                    /\ In (status response) [200; 500; 502])
  \/ (exists completion u,
         outcome = Ok completion
         /\ usage completion = Some u
         /\ outcome_response outcome
            = Raise (TypeError "Object of type CompletionUsage is not JSON serializable")).
Proof.
  destruct outcome as [completion|e].
  - pose proof (jsonify_response_payload completion) as H. cbn [outcome_response].
    destruct (usage completion) as [u|] eqn:Hu.
    + right. exists completion, u. rewrite H. auto.
    + left. destruct H as [fields ->]. eexists. split; [reflexivity|]. cbn. auto.
  - left. rewrite outcome_response_raise. eexists. split; [reflexivity|].
    destruct e; cbn; auto.
Qed.

(** X3.  A request goes one of three ways.  It is malformed (its payload is
    not a dict, its prompt is not text, or its messages list holds something
    that is not a dict) and an [AttributeError] leaves the handler with the
    world untouched.  Or it is not, and the handler returns a response whose
    status is 200, 400, 500 or 502.  Or it is not, the call to the
    completion service was made and answered with a completion carrying its
    usage, and the [TypeError] of encoding that usage leaves the handler. *)
Theorem handler_outcomes
        (refuses : AzureOpenAI -> option string)
        (create : CreateArgs -> result Completion) (request : Request) (w : World) :
  (malformed request
   /\ exists t a, generate_route_plan refuses create request w = (Raise (AttributeError t a), w))
  \/ (~ malformed request
      /\ exists response,
          fst (generate_route_plan refuses create request w) = Ok response
          /\ In (status response) [200; 400; 500; 502])
  \/ (~ malformed request
      /\ fst (generate_route_plan refuses create request w)
         = Raise (TypeError "Object of type CompletionUsage is not JSON serializable")
      /\ exists args completion u,
          calls (snd (generate_route_plan refuses create request w))
          = (calls w ++ [args])%list
          /\ create args = Ok completion
          /\ usage completion = Some u).
Proof.
  destruct (handler_cases refuses create request w)
    as [H | [[Hw H] | [(Hw & e & _ & H) | (Hw & items & prompt & um & config & H)]]].
  - now left.
  - right. left. split; [exact Hw|]. rewrite H. eexists. split; [reflexivity|]. cbn. auto.
  - right. left. split; [exact Hw|]. rewrite H, outcome_response_raise.
    eexists. split; [reflexivity|]. destruct e; cbn; auto.
  - destruct H as (_ & _ & _ & _ & _ & _ & H). rewrite H. cbn [fst snd calls].
    destruct (outcome_response_cases
                (create (upstream_args config items
                           (system_message :: spec_history (list_or_empty um)
                              ++ prompt_tail prompt)%list)))
      as [(response & -> & Hs) | (completion & u & Hc & Hu & ->)].
    + right. left. split; [exact Hw|]. exists response. split; [reflexivity|].
      cbn [In] in *. intuition.
    + right. right. split; [exact Hw|]. split; [reflexivity|]. eauto 6.
Qed.

(** X4.  Whatever the request, the handler leaves the environment alone,
    never drops or replaces a cached configuration, and makes at most one
    call to the completion service.  When it makes one, the configuration is
    cached from then on, the call uses that configuration's client and
    deployment, and its messages begin with the system message. *)
Theorem handler_effects
        (refuses : AzureOpenAI -> option string)
        (create : CreateArgs -> result Completion) (request : Request) (w : World) :
  environ (snd (generate_route_plan refuses create request w)) = environ w
  /\ (forall config, cache w = Some config ->
                     cache (snd (generate_route_plan refuses create request w)) = Some config)
  /\ (snd (generate_route_plan refuses create request w) = w
      \/ exists args config rest,
          calls (snd (generate_route_plan refuses create request w)) = (calls w ++ [args])%list
          /\ cache (snd (generate_route_plan refuses create request w)) = Some config
          /\ create_client args = client config
          /\ model args = deployment config
          /\ messages args = system_message :: rest).
Proof.
  destruct (handler_cases refuses create request w)
    as [(_ & t & a & H) | [[_ H] | [(_ & e & _ & H)
                                  | (_ & items & prompt & um & config & H)]]];
    try (rewrite H; cbn [snd]; auto).
  destruct H as (_ & _ & _ & _ & _ & Hb & H). rewrite H. cbn [snd environ cache calls].
  repeat split.
  - intros config' Hc. rewrite (build_client_cached w config' Hc) in Hb.
    cbn [fst] in Hb. congruence.
  - right. eexists. exists config. eexists. repeat split.
Qed.

(** X5.  Once a configuration is cached the handler reads neither the
    environment nor the record of earlier calls: the same request gets the
    same answer whatever those hold. *)
Theorem cached_configuration_decides
        (refuses : AzureOpenAI -> option string)
        (create : CreateArgs -> result Completion) (request : Request) (config : Config)
        (env1 env2 : environment) (made1 made2 : list CreateArgs) :
  fst (generate_route_plan refuses create request
         {| environ := env1; cache := Some config; calls := made1 |})
  = fst (generate_route_plan refuses create request
           {| environ := env2; cache := Some config; calls := made2 |}).
Proof.
  unfold generate_route_plan, bind, lift.
  destruct (request_prompt (request_payload request)) as [prompt|e] eqn:Hp; [|reflexivity].
  destruct (request_messages (request_payload request)) as [um|e]; [|reflexivity].
  destruct (negb (truthy (JStr prompt)) && negb (truthy um)); [reflexivity|].
  destruct (_normalize_messages (list_or_empty um) prompt) as [ms|e]; [|reflexivity].
  destruct (request_prompt_dict _ _ Hp) as [items ->].
  rewrite !(call_upstream_configured refuses create items ms _ config); reflexivity.
Qed.

(** X6.  A failed resolution is not remembered.  After a request answered
    while the settings were missing, the cache is still empty, and with the
    settings in place the next resolution reads them and succeeds. *)
Theorem failed_resolution_not_cached
        (refuses : AzureOpenAI -> option string)
        (create : CreateArgs -> result Completion) (request : Request) (w : World)
        (e : exn) (env : environment) (config : Config) :
  fst (build_client refuses w) = Raise e ->
  build_client_body refuses env = Ok config ->
  cache (snd (generate_route_plan refuses create request w)) = None
  /\ build_client refuses {| environ := env;
                     cache := cache (snd (generate_route_plan refuses create request w));
                     calls := calls (snd (generate_route_plan refuses create request w)) |}
     = (Ok config, {| environ := env; cache := Some config; calls := calls w |}).
Proof.
  intros Hb Hc. rewrite (handler_unconfigured_calls refuses create request w e Hb).
  destruct (build_client refuses w) as [r w'] eqn:Hbw. cbn [fst] in Hb. subst r.
  destruct (build_client_raise _ _ _ Hbw) as (_ & Hn & _).
  split; [exact Hn|]. unfold build_client. cbn [cache environ calls].
  now rewrite Hn, Hc.
Qed.

Lemma failed_resolution_not_cached_witness :
  cache (snd (generate_route_plan builds_all unreachable
                {| decoded_body := Some (JObj [("prompt", JStr "plan")]) |} blank_world))
  = None
  /\ build_client builds_all
       {| environ := configured_env;
          cache := cache (snd (generate_route_plan builds_all unreachable
                     {| decoded_body := Some (JObj [("prompt", JStr "plan")]) |} blank_world));
          calls := calls (snd (generate_route_plan builds_all unreachable
                     {| decoded_body := Some (JObj [("prompt", JStr "plan")]) |} blank_world)) |}
     = (Ok {| client := {| azure_endpoint := "https://example.openai.azure.com";
                           api_key := "secret";
                           api_version := "2025-01-01-preview" |};
              deployment := "gpt" |},
        {| environ := configured_env;
           cache := Some {| client := {| azure_endpoint := "https://example.openai.azure.com";
                                         api_key := "secret";
                                         api_version := "2025-01-01-preview" |};
                            deployment := "gpt" |};
           calls := calls blank_world |}).
Proof.
  apply (failed_resolution_not_cached builds_all unreachable
           {| decoded_body := Some (JObj [("prompt", JStr "plan")]) |} blank_world
           (ConfigurationError configuration_message) configured_env); reflexivity.
Defined.

(** ** What a resolved configuration holds *)

Lemma is_falsy_false (v : option string) :
  is_falsy v = false -> v = Some (text_of v) /\ text_of v <> "".
Proof.
  destruct v as [s|]; cbn; [|discriminate]. intro H. split; [reflexivity|].
  now apply String.eqb_neq.
Qed.

Lemma getenv_or_value (env : environment) (name fallback : string) :
  is_falsy (getenv_or env name fallback) = false ->
  text_of (getenv_or env name fallback) <> ""
  /\ (getenv env name = Some (text_of (getenv_or env name fallback))
      \/ (missing env name
          /\ getenv env fallback = Some (text_of (getenv_or env name fallback)))).
Proof.
  intro H. destruct (is_falsy_false _ H) as [Hv Hn]. split; [exact Hn|].
  unfold getenv_or in *. destruct (is_falsy (getenv env name)) eqn:Hf.
  - right. split; [now apply is_falsy_true | exact Hv].
  - left. exact Hv.
Qed.

(** X7.  A configuration [build_client] resolves never has an empty
    endpoint, deployment or key.  The endpoint is [AZURE_OPENAI_ENDPOINT]
    when that is set and not empty, and [ENDPOINT_URL] only otherwise; the
    deployment likewise with [DEPLOYMENT_NAME]; the key is
    [AZURE_OPENAI_API_KEY], which has no second name.  An API version that is
    set is used as it stands, the empty text included. *)
Theorem resolved_settings (refuses : AzureOpenAI -> option string)
        (env : environment) (config : Config) :
  build_client_body refuses env = Ok config ->
  azure_endpoint (client config) <> ""
  /\ deployment config <> ""
  /\ api_key (client config) <> ""
  /\ (getenv env "AZURE_OPENAI_ENDPOINT" = Some (azure_endpoint (client config))
      \/ (missing env "AZURE_OPENAI_ENDPOINT"
          /\ getenv env "ENDPOINT_URL" = Some (azure_endpoint (client config))))
  /\ (getenv env "AZURE_OPENAI_DEPLOYMENT" = Some (deployment config)
      \/ (missing env "AZURE_OPENAI_DEPLOYMENT"
          /\ getenv env "DEPLOYMENT_NAME" = Some (deployment config)))
  /\ getenv env "AZURE_OPENAI_API_KEY" = Some (api_key (client config))
  /\ (forall v, getenv env "AZURE_OPENAI_API_VERSION" = Some v ->
                api_version (client config) = v).
Proof.
  intro H.
  assert (Hver : forall v, getenv env "AZURE_OPENAI_API_VERSION" = Some v ->
                           api_version (client config) = v).
  { intros v Hv. rewrite (build_client_body_version _ _ H), Hv. reflexivity. }
  revert Hver. unfold build_client_body in H.
  destruct (is_falsy (getenv_or env "AZURE_OPENAI_ENDPOINT" "ENDPOINT_URL")) eqn:He;
    [discriminate H|].
  destruct (is_falsy (getenv_or env "AZURE_OPENAI_DEPLOYMENT" "DEPLOYMENT_NAME")) eqn:Hd;
    [discriminate H|].
  destruct (is_falsy (getenv env "AZURE_OPENAI_API_KEY")) eqn:Hk; [discriminate H|].
  cbn [orb] in H.
  match type of H with context [refuses ?c] => destruct (refuses c) end;
    [discriminate H|].
  inversion H as [Hc]. cbn [client deployment azure_endpoint api_key].
  destruct (getenv_or_value _ _ _ He) as [He1 He2].
  destruct (getenv_or_value _ _ _ Hd) as [Hd1 Hd2].
  destruct (is_falsy_false _ Hk) as [Hk1 Hk2].
  intro Hver. repeat split; auto.
Qed.

Lemma resolved_settings_witness :
  getenv [("AZURE_OPENAI_ENDPOINT", ""); ("ENDPOINT_URL", "https://second");
          ("AZURE_OPENAI_DEPLOYMENT", "gpt"); ("DEPLOYMENT_NAME", "other");
          ("AZURE_OPENAI_API_KEY", "secret"); ("AZURE_OPENAI_API_VERSION", "")]
         "AZURE_OPENAI_API_KEY" = Some "secret"
  /\ (forall v,
         getenv [("AZURE_OPENAI_ENDPOINT", ""); ("ENDPOINT_URL", "https://second");
                 ("AZURE_OPENAI_DEPLOYMENT", "gpt"); ("DEPLOYMENT_NAME", "other");
                 ("AZURE_OPENAI_API_KEY", "secret"); ("AZURE_OPENAI_API_VERSION", "")]
                "AZURE_OPENAI_API_VERSION" = Some v ->
         "" = v).
Proof.
  apply (resolved_settings builds_all
           [("AZURE_OPENAI_ENDPOINT", ""); ("ENDPOINT_URL", "https://second");
            ("AZURE_OPENAI_DEPLOYMENT", "gpt"); ("DEPLOYMENT_NAME", "other");
            ("AZURE_OPENAI_API_KEY", "secret"); ("AZURE_OPENAI_API_VERSION", "")]
           {| client := {| azure_endpoint := "https://second";
                           api_key := "secret";
                           api_version := "" |};
              deployment := "gpt" |}).
  reflexivity.
Defined.

(** ** What is handed to the completion service *)

(** X8.  The generation parameters of a call are the payload's own
    [max_completion_tokens] and [temperature], whatever they are (a [null]
    that is sent stays [null]); 4096 and 0.2 stand in only for a key that is
    not in the payload at all. *)
Theorem generation_parameters
        (refuses : AzureOpenAI -> option string)
        (create : CreateArgs -> result Completion) (request : Request) (w : World)
        (args : CreateArgs) :
  calls (snd (generate_route_plan refuses create request w)) = (calls w ++ [args])%list ->
  exists items,
    request_payload request = JObj items
    /\ max_completion_tokens args =
       match lookup "max_completion_tokens" items with
       | Some v => v
       | None => JInt 4096
       end
    /\ temperature args =
       match lookup "temperature" items with
       | Some v => v
       | None => JFloat 0x1.999999999999ap-3%float
       end.
Proof.
  intro Hc.
  assert (Hno : calls w <> (calls w ++ [args])%list).
  { intro H. apply (f_equal (@List.length _)) in H. rewrite length_app in H. cbn in H. lia. }
  destruct (handler_cases refuses create request w)
    as [(_ & t & a & H) | [[_ H] | [(_ & e & _ & H)
                                  | (_ & items & prompt & um & config & H)]]];
    try (rewrite H in Hc; cbn [snd] in Hc; now destruct (Hno Hc)).
  destruct H as (Hpay & _ & _ & _ & _ & _ & H). rewrite H in Hc. cbn [snd calls] in Hc.
  apply app_inv_head in Hc. inversion Hc. exists items. repeat split; auto.
Qed.

Lemma generation_parameters_witness :
  exists items,
    request_payload
      {| decoded_body := Some (JObj [("prompt", JStr "plan"); ("temperature", JNull)]) |}
    = JObj items
    /\ max_completion_tokens
         (upstream_args
            {| client := {| azure_endpoint := "https://example.openai.azure.com";
                            api_key := "secret";
                            api_version := "2025-01-01-preview" |};
               deployment := "gpt" |}
            [("prompt", JStr "plan"); ("temperature", JNull)]
            [system_message; user_message "plan"])
       = match lookup "max_completion_tokens" items with
         | Some v => v
         | None => JInt 4096
         end
    /\ temperature
         (upstream_args
            {| client := {| azure_endpoint := "https://example.openai.azure.com";
                            api_key := "secret";
                            api_version := "2025-01-01-preview" |};
               deployment := "gpt" |}
            [("prompt", JStr "plan"); ("temperature", JNull)]
            [system_message; user_message "plan"])
       = match lookup "temperature" items with
         | Some v => v
         | None => JFloat 0x1.999999999999ap-3%float
         end.
Proof.
  apply (generation_parameters builds_all answering
           {| decoded_body := Some (JObj [("prompt", JStr "plan"); ("temperature", JNull)]) |}
           configured_world).
  reflexivity.
Defined.

(** ** What the validation looks at *)

(** X9.  The fallback to [user_prompt] is decided before trimming.  A
    [prompt] that is not empty but trims to nothing hides [user_prompt]: with
    no messages beside it, the request is answered 400 whatever
    [user_prompt] holds. *)
Theorem blank_prompt_hides_fallback
        (refuses : AzureOpenAI -> option string)
        (create : CreateArgs -> result Completion) (request : Request) (w : World)
        (items : list (string * json)) (text : string) :
  request_payload request = JObj items ->
  entry_field "prompt" (JObj items) = JStr text ->
  text <> "" ->
  strip text = "" ->
  truthy (entry_field "messages" (JObj items)) = false ->
  generate_route_plan refuses create request w =
  (Ok {| status := 400; body := JObj [("error", JStr missing_input_message)] |}, w).
Proof.
  intros Hpay Hp Hne Hs Hm.
  apply (handler_rejects refuses create request w "" (JArr [])); rewrite ?Hpay; try reflexivity.
  - unfold request_prompt, raw_prompt. rewrite method_get_dict, Hp. cbn [rbind truthy].
    apply String.eqb_neq in Hne. rewrite Hne. cbn [negb rbind method_strip]. now rewrite Hs.
  - rewrite request_messages_dict. now rewrite (py_or_falsy _ _ Hm).
Qed.

Lemma blank_prompt_hides_fallback_witness :
  generate_route_plan builds_all unreachable
    {| decoded_body :=
         Some (JObj [("prompt", JStr " "); ("user_prompt", JStr "visit three patients")]) |}
    blank_world =
  (Ok {| status := 400; body := JObj [("error", JStr missing_input_message)] |}, blank_world).
Proof.
  apply (blank_prompt_hides_fallback builds_all unreachable
           {| decoded_body :=
                Some (JObj [("prompt", JStr " ");
                            ("user_prompt", JStr "visit three patients")]) |}
           blank_world
           [("prompt", JStr " "); ("user_prompt", JStr "visit three patients")] " ");
    try reflexivity.
  intro H. discriminate H.
Defined.

Lemma spec_history_dropped (history : list json) :
  Forall (fun e => is_dict e = true /\ spec_entry e = None) history ->
  Forall (fun e => is_dict e = true) history /\ spec_history history = [].
Proof.
  induction 1 as [|entry rest [Hd Hs] _ [IH1 IH2]]; [split; constructor|].
  split; [now constructor|]. cbn [spec_history]. now rewrite Hs.
Qed.

(** X10.  The validation looks at the messages as they were sent, not at
    what normalisation keeps of them.  A request with no prompt and a
    non-empty list of entries that are all dropped (no role, no content, or
    content that is neither text nor a list) is let through, and with
    configuration resolved the completion service is called, once, with the
    system message alone. *)
Theorem dropped_history_still_calls
        (refuses : AzureOpenAI -> option string)
        (create : CreateArgs -> result Completion) (request : Request) (w : World)
        (items : list (string * json)) (entry : json) (rest : list json) (config : Config) :
  request_payload request = JObj items ->
  request_prompt (JObj items) = Ok "" ->
  entry_field "messages" (JObj items) = JArr (entry :: rest) ->
  Forall (fun e => is_dict e = true /\ spec_entry e = None) (entry :: rest) ->
  fst (build_client refuses w) = Ok config ->
  snd (generate_route_plan refuses create request w) =
  {| environ := environ w;
     cache := Some config;
     calls := (calls w ++ [upstream_args config items [system_message]])%list |}.
Proof.
  intros Hpay Hp Hm Hall Hb. destruct (spec_history_dropped _ Hall) as [Hd Hs].
  rewrite (handler_proceeds refuses create request w "" (JArr (entry :: rest))
             [system_message]); rewrite ?Hpay.
  - now rewrite (call_upstream_configured refuses create items [system_message] w config Hb).
  - exact Hp.
  - rewrite request_messages_dict, Hm. reflexivity.
  - reflexivity.
  - cbn [list_or_empty]. rewrite (normalize_messages_spec _ "" Hd), Hs. reflexivity.
Qed.

Lemma dropped_history_still_calls_witness :
  snd (generate_route_plan builds_all counting
         {| decoded_body := Some (JObj [("messages", JArr [JObj []])]) |} configured_world)
  = {| environ := environ configured_world;
       cache := Some {| client := {| azure_endpoint := "https://example.openai.azure.com";
                                     api_key := "secret";
                                     api_version := "2025-01-01-preview" |};
                        deployment := "gpt" |};
       calls := (calls configured_world
                   ++ [upstream_args
                         {| client := {| azure_endpoint := "https://example.openai.azure.com";
                                         api_key := "secret";
                                         api_version := "2025-01-01-preview" |};
                            deployment := "gpt" |}
                         [("messages", JArr [JObj []])] [system_message]])%list |}.
Proof.
  apply (dropped_history_still_calls builds_all counting
           {| decoded_body := Some (JObj [("messages", JArr [JObj []])]) |} configured_world
           [("messages", JArr [JObj []])] (JObj []) []); try reflexivity.
  repeat constructor.
Defined.

(** ** Requests one after another *)

(** X11.  Two requests handled one after the other, each of which reaches
    the completion service, reach it with the same client and the same
    deployment, even when the environment was changed between them: the
    second is served from the configuration the first one cached. *)
Theorem consecutive_calls_share_configuration
        (refuses : AzureOpenAI -> option string)
        (create1 create2 : CreateArgs -> result Completion) (request1 request2 : Request)
        (w w1 w2 : World) (env : environment) (a b : CreateArgs) :
  snd (generate_route_plan refuses create1 request1 w) = w1 ->
  snd (generate_route_plan refuses create2 request2
         {| environ := env; cache := cache w1; calls := calls w1 |}) = w2 ->
  calls w2 = (calls w ++ [a; b])%list ->
  create_client a = create_client b /\ model a = model b.
Proof.
  intros H1 H2 Hc.
  destruct (handler_effects refuses create1 request1 w) as (_ & _ & E1).
  destruct (handler_effects refuses create2 request2
              {| environ := env; cache := cache w1; calls := calls w1 |}) as (_ & K2 & E2).
  rewrite H1 in E1. rewrite H2 in E2, K2. cbn [calls cache] in E2, K2.
  assert (Hlen : forall (l : list CreateArgs) x y, l <> (l ++ [x; y])%list).
  { intros l x y H. apply (f_equal (@List.length _)) in H.
    rewrite length_app in H. cbn in H. lia. }
  destruct E2 as [E2 | (b' & config2 & rest2 & Hb & Hk2 & Hcb & Hmb & _)].
  - exfalso. rewrite E2 in Hc. cbn [calls] in Hc.
    destruct E1 as [E1 | (a' & config1 & rest1 & Ha & _)].
    + rewrite E1 in Hc. exact (Hlen _ _ _ Hc).
    + rewrite Ha in Hc. change [a; b] with ([a] ++ [b])%list in Hc.
      rewrite app_assoc in Hc. apply (f_equal (@List.length _)) in Hc.
      rewrite !length_app in Hc. cbn in Hc. lia.
  - destruct E1 as [E1 | (a' & config1 & rest1 & Ha & Hk1 & Hca & Hma & _)].
    + exfalso. rewrite E1 in Hb. rewrite Hb in Hc.
      apply (f_equal (@List.length _)) in Hc. rewrite !length_app in Hc. cbn in Hc. lia.
    + rewrite Hb, Ha, <- app_assoc in Hc. apply app_inv_head in Hc.
      inversion Hc. subst a' b'.
      rewrite (K2 config1 Hk1) in Hk2. inversion Hk2. subst config2.
      split; congruence.
Qed.

Lemma consecutive_calls_share_configuration_witness :
  create_client
    (upstream_args
       {| client := {| azure_endpoint := "https://example.openai.azure.com";
                       api_key := "secret";
                       api_version := "2025-01-01-preview" |};
          deployment := "gpt" |}
       [("prompt", JStr "first")] [system_message; user_message "first"])
  = create_client
      (upstream_args
         {| client := {| azure_endpoint := "https://example.openai.azure.com";
                         api_key := "secret";
                         api_version := "2025-01-01-preview" |};
            deployment := "gpt" |}
         [("prompt", JStr "second")] [system_message; user_message "second"])
  /\ model
       (upstream_args
          {| client := {| azure_endpoint := "https://example.openai.azure.com";
                          api_key := "secret";
                          api_version := "2025-01-01-preview" |};
             deployment := "gpt" |}
          [("prompt", JStr "first")] [system_message; user_message "first"])
     = model
         (upstream_args
            {| client := {| azure_endpoint := "https://example.openai.azure.com";
                            api_key := "secret";
                            api_version := "2025-01-01-preview" |};
               deployment := "gpt" |}
            [("prompt", JStr "second")] [system_message; user_message "second"]).
Proof.
  apply (consecutive_calls_share_configuration builds_all answering unreachable
           {| decoded_body := Some (JObj [("prompt", JStr "first")]) |}
           {| decoded_body := Some (JObj [("prompt", JStr "second")]) |}
           configured_world
           (snd (generate_route_plan builds_all answering
                   {| decoded_body := Some (JObj [("prompt", JStr "first")]) |}
                   configured_world))
           (snd (generate_route_plan builds_all unreachable
                   {| decoded_body := Some (JObj [("prompt", JStr "second")]) |}
                   {| environ := [];
                      cache := cache (snd (generate_route_plan builds_all answering
                                 {| decoded_body := Some (JObj [("prompt", JStr "first")]) |}
                                 configured_world));
                      calls := calls (snd (generate_route_plan builds_all answering
                                 {| decoded_body := Some (JObj [("prompt", JStr "first")]) |}
                                 configured_world)) |}))
           []); reflexivity.
Defined.
